(** * ServX: record store, quota and shared-folder authorisation

    A shallow embedding of the Python sources [Server/database.py],
    [Server/routes.py] and [Server/config.py].  Python dictionaries
    are finite maps ([gmap]), the JSON store file and the two storage
    roots form an explicit world that every operation threads through
    a small state-and-exception monad, and Python exceptions are
    values of the type [exn]. *)

From Stdlib Require Import ZArith Ascii String List.
From stdpp Require Import base option gmap strings list fin_maps pretty.

Open Scope Z_scope.

(* ================================================================== *)
(** * Data model *)
(* ================================================================== *)

(** [database.create_user] writes these seven keys for every user. *)
Record User := mkUser {
  email : string;
  salt : string;
  password : string;
  created_at : string;
  last_active : string;
  storage_used : Z;
  storage_limit : Z
}.

(** [database.create_shared_folder] writes these four keys for every
    folder; [shared_with] is the list returned by
    [request.form.getlist]. *)
Record Folder := mkFolder {
  name : string;
  owner : string;
  shared_with : list string;
  folder_created_at : string
}.

(** The JSON document.  The code reads [data['users']] directly but
    reads the folders as [data.get('shared_folders', {})], so the
    second key may be absent from a document. *)
Record Document := mkDocument {
  users : gmap string User;
  shared_folders : option (gmap string Folder)
}.

(** [{'users': {}, 'shared_folders': {}}] *)
Definition empty_document : Document :=
  {| users := ∅; shared_folders := Some ∅ |}.

(** [data.get('shared_folders', {})] *)
Definition folders_of (data : Document) : gmap string Folder :=
  default ∅ (shared_folders data).

(** The text of a store file, by what [json.load] makes of it: text
    that the parser rejects with [JSONDecodeError], or the text of a
    document.  Files that cannot be read as text at all are the subject
    of the module [store_file] below. *)
Inductive Content :=
  | Garbage (raw : string)
  | Json (data : Document).

(** A directory of a storage root, by its regular files and their
    sizes in bytes.  The application only ever stores plain files
    directly inside such a directory. *)
Abbreviation Dir := (gmap string Z).

(** The two storage roots, [UPLOAD_FOLDER] and [SHARED_FOLDER]. *)
Inductive Root := UserRoot | SharedRoot.

(** Effects that change the disk, recorded in the order they happen. *)
Inductive Event :=
  | EvInitDb
  | EvBackup
  | EvDump (data : Document)
  | EvMakedirs (root : Root) (entry : string)
  | EvRmtree (root : Root) (entry : string)
  | EvSaveFile (root : Root) (entry : string) (filename : string)
  | EvRemove (root : Root) (entry : string) (filename : string).

(** Everything outside the process that the code reads or writes. *)
Record World := mkWorld {
  db_file : option Content;          (* DATABASE_FILE, [None] when missing *)
  db_backup : option Content;        (* DATABASE_FILE + '.backup' *)
  user_storage : gmap string Dir;    (* UPLOAD_FOLDER/<username> *)
  shared_storage : gmap string Dir;  (* SHARED_FOLDER/<folder_id> *)
  clock : nat → string;              (* successive datetime.now().isoformat() *)
  ticks : nat;                       (* clock readings taken so far *)
  entropy : nat → Z;                 (* the bytes of the system random source *)
  drawn : nat;                       (* random bytes consumed so far *)
  trace : list Event
}.

Definition set_db_file (c : option Content) (w : World) : World :=
  mkWorld c (db_backup w) (user_storage w) (shared_storage w)
          (clock w) (ticks w) (entropy w) (drawn w) (trace w).
Definition set_db_backup (c : option Content) (w : World) : World :=
  mkWorld (db_file w) c (user_storage w) (shared_storage w)
          (clock w) (ticks w) (entropy w) (drawn w) (trace w).
Definition set_user_storage (m : gmap string Dir) (w : World) : World :=
  mkWorld (db_file w) (db_backup w) m (shared_storage w)
          (clock w) (ticks w) (entropy w) (drawn w) (trace w).
Definition set_shared_storage (m : gmap string Dir) (w : World) : World :=
  mkWorld (db_file w) (db_backup w) (user_storage w) m
          (clock w) (ticks w) (entropy w) (drawn w) (trace w).
Definition root_dirs (r : Root) (w : World) : gmap string Dir :=
  match r with UserRoot => user_storage w | SharedRoot => shared_storage w end.
Definition set_root_dirs (r : Root) (m : gmap string Dir) (w : World) : World :=
  match r with
  | UserRoot => set_user_storage m w
  | SharedRoot => set_shared_storage m w
  end.
Definition set_ticks (n : nat) (w : World) : World :=
  mkWorld (db_file w) (db_backup w) (user_storage w) (shared_storage w)
          (clock w) n (entropy w) (drawn w) (trace w).
Definition set_drawn (n : nat) (w : World) : World :=
  mkWorld (db_file w) (db_backup w) (user_storage w) (shared_storage w)
          (clock w) (ticks w) (entropy w) n (trace w).
Definition log (e : Event) (w : World) : World :=
  mkWorld (db_file w) (db_backup w) (user_storage w) (shared_storage w)
          (clock w) (ticks w) (entropy w) (drawn w) (trace w ++ [e]).

(* ================================================================== *)
(** * Exceptions and the monad of effects *)
(* ================================================================== *)

Inductive exn :=
  | FileNotFoundError
  | JSONDecodeError
  | IsADirectoryError
  | TypeError
  | UnicodeDecodeError
  | RecursionError
  | RequestEntityTooLarge   (* the 413 of a body above MAX_CONTENT_LENGTH *)
  | NonTermination.   (* a loop that ran out of the fuel it was given *)

Inductive result (A : Type) :=
  | Ok (a : A)
  | Raise (e : exn).
Arguments Ok {A} a.
Arguments Raise {A} e.

(** A computation runs in a world, returns or raises, and leaves a world
    behind in both cases. *)
Definition M (A : Type) : Type := World → result A * World.

Global Instance M_ret : MRet M := λ A a w, (Ok a, w).
Global Instance M_bind : MBind M := λ A B k c w,
  match c w with
  | (Ok a, w') => k a w'
  | (Raise e, w') => (Raise e, w')
  end.
Definition ret {A} (a : A) : M A := mret a.
Definition raise {A} (e : exn) : M A := λ w, (Raise e, w).
Definition gets {A} (f : World → A) : M A := λ w, (Ok (f w), w).
Definition modify (f : World → World) : M unit := λ w, (Ok tt, f w).

(** [if b: c] *)
Definition when (b : bool) (c : M unit) : M unit := if b then c else ret tt.

(** [try: c  except <handled>: h] *)
Definition try_except {A} (c : M A) (handled : exn → bool) (h : M A) : M A :=
  λ w, match c w with
       | (Ok a, w') => (Ok a, w')
       | (Raise e, w') => if handled e then h w' else (Raise e, w')
       end.

(* ================================================================== *)
(** * Server/database.py *)
(* ================================================================== *)

Module database.

(** [os.path.exists(db_file)] *)
Definition exists_db : M bool := gets (λ w, bool_decide (is_Some (db_file w))).

(** [open(db_file, 'r')] and the reading of its text.  The store file
    of a [World] is a file whose bytes decode; see [store_file] for the
    files that do not. *)
Definition open_read : M Content := λ w,
  match db_file w with
  | Some c => (Ok c, w)
  | None => (Raise FileNotFoundError, w)
  end.

(** [json.load(f)] *)
Definition json_load (c : Content) : M Document :=
  match c with
  | Json data => ret data
  | Garbage _ => raise JSONDecodeError
  end.

(** [with open(db_file, 'w') as f: json.dump(data, f, indent=2)] *)
Definition json_dump (data : Document) : M unit :=
  modify (set_db_file (Some (Json data))).

Definition init_db : M unit :=
  present ← exists_db;
  when (negb present)
    (json_dump empty_document ;; modify (log EvInitDb)).

Definition load_db : M Document :=
  try_except
    (f ← open_read; json_load f)
    (λ e, match e with
          | FileNotFoundError | JSONDecodeError => true
          | _ => false
          end)
    (init_db ;; ret empty_document).

Definition save_db (data : Document) : M unit :=
  present ← exists_db;
  when present
    (try_except
       (backup_data ← open_read;
        modify (set_db_backup (Some backup_data)) ;; modify (log EvBackup))
       (λ _, true)
       (ret tt));;
  json_dump data ;; modify (log (EvDump data)).

(** [datetime.now().isoformat()] *)
Definition now_isoformat : M string := λ w,
  (Ok (clock w (ticks w)), set_ticks (S (ticks w)) w).

Definition create_user (username email_ salt_ hashed_password : string)
    (storage_limit_ : Z) : M (bool * string) :=
  data ← load_db;
  if bool_decide (is_Some (users data !! username))
  then ret (false, "Username already exists")
  else if bool_decide (10 ≤ Z.of_nat (size (users data)))
  then ret (false, "Maximum number of users reached")
  else
    t_created ← now_isoformat;
    t_active ← now_isoformat;
    let record := {| email := email_; salt := salt_;
                     password := hashed_password;
                     created_at := t_created; last_active := t_active;
                     storage_used := 0; storage_limit := storage_limit_ |} in
    save_db (mkDocument (<[username := record]> (users data))
                        (shared_folders data));;
    ret (true, "User created successfully").

Definition get_user (username : string) : M (option User) :=
  data ← load_db; ret (users data !! username).

Definition set_last_active (t : string) (u : User) : User :=
  mkUser (email u) (salt u) (password u) (created_at u) t
         (storage_used u) (storage_limit u).
Definition set_storage_used (n : Z) (u : User) : User :=
  mkUser (email u) (salt u) (password u) (created_at u) (last_active u)
         n (storage_limit u).

Definition update_user_activity (username : string) : M unit :=
  data ← load_db;
  match users data !! username with
  | Some u =>
      t ← now_isoformat;
      save_db (mkDocument (<[username := set_last_active t u]> (users data))
                          (shared_folders data))
  | None => ret tt
  end.

Definition update_user_storage (username : string) (storage_used_ : Z)
    : M unit :=
  data ← load_db;
  match users data !! username with
  | Some u =>
      save_db (mkDocument
                 (<[username := set_storage_used storage_used_ u]> (users data))
                 (shared_folders data))
  | None => ret tt
  end.

Definition get_all_users : M (gmap string User) :=
  data ← load_db; ret (users data).

Definition create_shared_folder (folder_id folder_name owner_ : string)
    (shared_with_ : list string) : M unit :=
  data ← load_db;
  t ← now_isoformat;
  let record := {| name := folder_name; owner := owner_;
                   shared_with := shared_with_; folder_created_at := t |} in
  save_db (mkDocument (users data)
                      (Some (<[folder_id := record]> (folders_of data)))).

Definition get_shared_folder (folder_id : string) : M (option Folder) :=
  data ← load_db; ret (folders_of data !! folder_id).

Definition delete_shared_folder (folder_id : string) : M bool :=
  data ← load_db;
  match shared_folders data with
  | Some folders =>
      if bool_decide (is_Some (folders !! folder_id))
      then save_db (mkDocument (users data) (Some (delete folder_id folders)));;
           ret true
      else ret false
  | None => ret false
  end.

(** [folder['owner'] == username or username in folder['shared_with']] *)
Definition is_member (username : string) (folder : Folder) : bool :=
  bool_decide (owner folder = username)
  || bool_decide (username ∈ shared_with folder).

Definition can_access_folder (username folder_id : string) : M bool :=
  folder ← get_shared_folder folder_id;
  match folder with
  | None => ret false
  | Some f => ret (is_member username f)
  end.

End database.

(* ================================================================== *)
(** * The store file, byte for byte *)
(* ================================================================== *)

(** [init_db], [load_db] and [save_db] once more, over every content
    that the store file and its backup can have, with the exceptions
    that reading them raises.  On files that hold text these are the
    functions of [database]. *)
Module store_file.

(** The bytes of a file, by what reading them does: they decode to a
    text that [json.load] parses or rejects; they do not decode, and
    [f.read()] raises [UnicodeDecodeError]; or they decode to a text
    nested so deeply that [json.load] raises [RecursionError]. *)
Inductive Bytes :=
  | Text (c : Content)
  | Undecodable (raw : list Z)
  | TooDeep (raw : string).

(** [DATABASE_FILE] and [DATABASE_FILE + '.backup'], [None] when
    missing. *)
Record Files := mkFiles {
  db : option Bytes;
  backup : option Bytes
}.

Definition F (A : Type) : Type := Files → result A * Files.

Global Instance F_ret : MRet F := λ A a f, (Ok a, f).
Global Instance F_bind : MBind F := λ A B k c f,
  match c f with
  | (Ok a, f') => k a f'
  | (Raise e, f') => (Raise e, f')
  end.

Definition raise {A} (e : exn) : F A := λ f, (Raise e, f).

(** [try: c  except <handled>: h] *)
Definition try_except {A} (c : F A) (handled : exn → bool) (h : F A) : F A :=
  λ f, match c f with
       | (Ok a, f') => (Ok a, f')
       | (Raise e, f') => if handled e then h f' else (Raise e, f')
       end.

(** [os.path.exists(db_file)] *)
Definition exists_db : F bool := λ f, (Ok (bool_decide (is_Some (db f))), f).

(** [with open(db_file, 'r') as f: f.read()] *)
Definition read_text : F Bytes := λ f,
  match db f with
  | None => (Raise FileNotFoundError, f)
  | Some (Undecodable _) => (Raise UnicodeDecodeError, f)
  | Some b => (Ok b, f)
  end.

(** [json.loads] on the text read. *)
Definition json_loads (b : Bytes) : F Document :=
  match b with
  | Text (Json data) => mret data
  | Text (Garbage _) => raise JSONDecodeError
  | TooDeep _ => raise RecursionError
  | Undecodable _ => raise UnicodeDecodeError
  end.

(** [with open(db_file, 'w') as f: json.dump(data, f, indent=2)] *)
Definition json_dump (data : Document) : F unit := λ f,
  (Ok tt, mkFiles (Some (Text (Json data))) (backup f)).

(** [with open(backup_file, 'w') as f: f.write(backup_data)] *)
Definition write_backup (b : Bytes) : F unit := λ f,
  (Ok tt, mkFiles (db f) (Some b)).

Definition init_db : F unit :=
  present ← exists_db;
  if negb present then json_dump empty_document else mret tt.

(** [json.load(f)] reads the text and parses it. *)
Definition load_db : F Document :=
  try_except
    (text ← read_text; json_loads text)
    (λ e, match e with
          | FileNotFoundError | JSONDecodeError => true
          | _ => false
          end)
    (init_db ;; mret empty_document).

Definition save_db (data : Document) : F unit :=
  present ← exists_db;
  (if (present : bool)
   then try_except (backup_data ← read_text; write_backup backup_data)
          (λ _, true) (mret tt)
   else mret tt);;
  json_dump data.

End store_file.

(* ================================================================== *)
(** * Server/utils.py (the helpers that [routes.py] imports) *)
(* ================================================================== *)

Module utils.

Definition NUL : ascii := "000"%char.

(** The separators of both path flavours, ['/'] and the backslash. *)
Definition is_sep (c : ascii) : bool :=
  bool_decide (c = "/"%char) || bool_decide (c = "\"%char).

(** [s.split(sep)] for a class of separator characters: the pieces
    between separators, empty pieces included. *)
Fixpoint split_on (p : ascii → bool) (s : list ascii) : list (list ascii) :=
  match s with
  | [] => [[]]
  | c :: rest =>
      if p c then [] :: split_on p rest
      else match split_on p rest with
           | seg :: segs => (c :: seg) :: segs
           | [] => [[c]]
           end
  end.

Definition dotdot : list ascii := ["."%char; "."%char].

(** The position of the last ['.'], as the text before it and the text
    from it on. *)
Fixpoint rsplit_dot (s : list ascii) : option (list ascii * list ascii) :=
  match s with
  | [] => None
  | c :: rest =>
      match rsplit_dot rest with
      | Some (stem, ext) => Some (c :: stem, ext)
      | None => if bool_decide (c = "."%char) then Some ([], c :: rest) else None
      end
  end.

(** [os.path.splitext]: the extension starts at the last dot, unless
    only dots come before it. *)
Definition splitext (s : list ascii) : list ascii * list ascii :=
  match rsplit_dot s with
  | Some (stem, ext) =>
      if forallb (λ c, bool_decide (c = "."%char)) stem then (s, []) else (stem, ext)
  | None => (s, [])
  end.

(** [str(counter)] *)
Definition str_nat (n : nat) : list ascii := list_ascii_of_string (pretty n).

(** Modelled from the spec: [utils.safe_filename] is imported by
    [routes.py] but its file is not part of the sources.  The spec:
    strips path separators and any [..] segments, collapses to a
    filesystem-safe basename; when the disambiguator is positive,
    appends a numeric suffix before the extension; defends against
    traversal and null-byte tricks.  Here: null bytes are dropped, the
    name is cut at every separator, [..] pieces are discarded, the last
    piece left is the basename, and a positive disambiguator [n] turns
    [stem.ext] into [stem_n.ext]. *)
Definition safe_basename (original : list ascii) : list ascii :=
  let cleaned := filter (λ c, c ≠ NUL) original in
  let segments := filter (λ seg, seg ≠ dotdot) (split_on is_sep cleaned) in
  List.last segments [].

Definition safe_filename_chars (original : list ascii) (disambiguator : nat)
    : list ascii :=
  let base := safe_basename original in
  match disambiguator with
  | O => base
  | S _ => let '(stem, ext) := splitext base in
           stem ++ "_"%char :: str_nat disambiguator ++ ext
  end.

Definition safe_filename (original : string) (disambiguator : nat) : string :=
  string_of_list_ascii
    (safe_filename_chars (list_ascii_of_string original) disambiguator).

(** Modelled from the spec: [utils.get_directory_size] is not part of
    the sources.  The spec: recursively sums the sizes of all regular
    files under the path; treats a missing directory as size 0. *)
Definition dir_size (d : Dir) : Z := map_fold (λ _ size acc, size + acc) 0 d.

Definition get_directory_size (root : Root) (entry : string) : M Z :=
  gets (λ w, match root_dirs root w !! entry with
             | Some d => dir_size d
             | None => 0
             end).

(** Modelled from the spec: [utils.ensure_directory_exists] is not part
    of the sources.  The spec: creates the directory (and parents) if
    absent, idempotently; returns the path. *)
Definition ensure_directory_exists (root : Root) (entry : string)
    : M (Root * string) :=
  present ← gets (λ w, bool_decide (is_Some (root_dirs root w !! entry)));
  when (negb present)
    (modify (λ w, set_root_dirs root (<[entry := ∅]> (root_dirs root w)) w) ;;
     modify (log (EvMakedirs root entry)));;
  ret (root, entry).

(** [os.path.exists(os.path.join(directory, filename))] for a name
    without separators, in a directory that exists: the directory
    itself, its parent, or one of its entries. *)
Definition path_exists (d : Dir) (filename : string) : bool :=
  bool_decide (filename = "") || bool_decide (filename = ".")
  || bool_decide (filename = "..") || bool_decide (is_Some (d !! filename)).

(** [os.path.basename]: what follows the last ['/']. *)
Definition basename (path : string) : string :=
  string_of_list_ascii
    (List.last (split_on (λ c, bool_decide (c = "/"%char))
                         (list_ascii_of_string path)) []).

End utils.

(** ** Path resolution, to state where a name leads *)

Module path.

(** The path rules are those of POSIX ([posixpath]): the separator is
    ['/'], and there are no drive letters. *)
Definition sep (c : ascii) : bool := bool_decide (c = "/"%char).

(** One component of [os.path.normpath]: empty and ["."] components
    vanish, [".."] leaves the current directory, any other name enters
    it. *)
Definition normpath_step (stack : list (list ascii)) (seg : list ascii)
    : list (list ascii) :=
  if bool_decide (seg = [] ∨ seg = ["."%char]) then stack
  else if bool_decide (seg = utils.dotdot) then removelast stack
  else stack ++ [seg].

(** [os.path.normpath(os.path.join(directory, name))] as the list of
    components below the root: a name that starts with a separator
    replaces the directory, any other is resolved from it. *)
Definition resolve (directory : list (list ascii)) (name_ : list ascii)
    : list (list ascii) :=
  let start := match name_ with
               | c :: _ => if sep c then [] else directory
               | [] => directory
               end in
  fold_left normpath_step (utils.split_on sep name_) start.

End path.

(* ================================================================== *)
(** * Server/config.py *)
(* ================================================================== *)

Module config.

(** [os.environ], by the variables the module reads.  A numeric
    variable is held as the integer that [int(...)] reads from it. *)
Record Environ := mkEnviron {
  env_SECRET_KEY : option string;
  env_UPLOAD_FOLDER : option string;
  env_SHARED_FOLDER : option string;
  env_DATABASE_FILE : option string;
  env_SESSION_LIFETIME_HOURS : option Z;
  env_MAX_USERS : option Z;
  env_STORAGE_LIMIT_GB : option Z;
  env_HOST : option string;
  env_PORT : option Z;
  env_DEBUG : option string;
  env_FLASK_ENV : option string
}.

(** The attributes of a configuration class. *)
Record Config := mkConfig {
  SECRET_KEY : option string;
  MAX_CONTENT_LENGTH : Z;
  UPLOAD_FOLDER : string;
  SHARED_FOLDER : string;
  DATABASE_FILE : string;
  SESSION_COOKIE_SECURE : bool;
  SESSION_COOKIE_HTTPONLY : bool;
  SESSION_COOKIE_SAMESITE : string;
  PERMANENT_SESSION_LIFETIME : Z;   (* hours *)
  MAX_USERS : Z;
  STORAGE_LIMIT_PER_USER : Z;
  HOST : string;
  PORT : Z;
  DEBUG : bool;
  TESTING : bool
}.

(** [x or y] on an optional string: [None] and [''] are falsy. *)
Definition py_or (x : option string) (y : string) : string :=
  match x with
  | Some s => if bool_decide (s = "") then y else s
  | None => y
  end.

Definition lower_char (c : ascii) : ascii :=
  let n := nat_of_ascii c in
  if (65 <=? n)%nat && (n <=? 90)%nat then ascii_of_nat (n + 32) else c.

(** [str.lower] *)
Fixpoint lower (s : string) : string :=
  match s with
  | EmptyString => EmptyString
  | String c rest => String (lower_char c) (lower rest)
  end.

Section classes.
(** The process environment, and the value of [os.urandom(32).hex()]
    when the class body of [Config] runs. *)
Variable environ : Environ.
Variable urandom_hex : string.

Definition Config_ : Config := {|
  SECRET_KEY := Some (py_or (env_SECRET_KEY environ) urandom_hex);
  MAX_CONTENT_LENGTH := 2 * 1024 * 1024 * 1024;
  UPLOAD_FOLDER := py_or (env_UPLOAD_FOLDER environ) "user_storage";
  SHARED_FOLDER := py_or (env_SHARED_FOLDER environ) "shared_storage";
  DATABASE_FILE := py_or (env_DATABASE_FILE environ) "users.json";
  SESSION_COOKIE_SECURE := false;
  SESSION_COOKIE_HTTPONLY := true;
  SESSION_COOKIE_SAMESITE := "Lax";
  PERMANENT_SESSION_LIFETIME := default 1 (env_SESSION_LIFETIME_HOURS environ);
  MAX_USERS := default 10 (env_MAX_USERS environ);
  STORAGE_LIMIT_PER_USER :=
    default 10 (env_STORAGE_LIMIT_GB environ) * 1024 * 1024 * 1024;
  HOST := default "0.0.0.0" (env_HOST environ);
  PORT := default 5000 (env_PORT environ);
  DEBUG := bool_decide (lower (default "False" (env_DEBUG environ)) = "true");
  TESTING := false
|}.

(** A subclass: the attributes of the base class, some overridden. *)
Definition with_DEBUG (b : bool) (c : Config) : Config :=
  mkConfig (SECRET_KEY c) (MAX_CONTENT_LENGTH c) (UPLOAD_FOLDER c)
    (SHARED_FOLDER c) (DATABASE_FILE c) (SESSION_COOKIE_SECURE c)
    (SESSION_COOKIE_HTTPONLY c) (SESSION_COOKIE_SAMESITE c)
    (PERMANENT_SESSION_LIFETIME c) (MAX_USERS c) (STORAGE_LIMIT_PER_USER c)
    (HOST c) (PORT c) b (TESTING c).
Definition with_SESSION_COOKIE_SECURE (b : bool) (c : Config) : Config :=
  mkConfig (SECRET_KEY c) (MAX_CONTENT_LENGTH c) (UPLOAD_FOLDER c)
    (SHARED_FOLDER c) (DATABASE_FILE c) b
    (SESSION_COOKIE_HTTPONLY c) (SESSION_COOKIE_SAMESITE c)
    (PERMANENT_SESSION_LIFETIME c) (MAX_USERS c) (STORAGE_LIMIT_PER_USER c)
    (HOST c) (PORT c) (DEBUG c) (TESTING c).
Definition with_SECRET_KEY (k : option string) (c : Config) : Config :=
  mkConfig k (MAX_CONTENT_LENGTH c) (UPLOAD_FOLDER c)
    (SHARED_FOLDER c) (DATABASE_FILE c) (SESSION_COOKIE_SECURE c)
    (SESSION_COOKIE_HTTPONLY c) (SESSION_COOKIE_SAMESITE c)
    (PERMANENT_SESSION_LIFETIME c) (MAX_USERS c) (STORAGE_LIMIT_PER_USER c)
    (HOST c) (PORT c) (DEBUG c) (TESTING c).
Definition with_TESTING (b : bool) (c : Config) : Config :=
  mkConfig (SECRET_KEY c) (MAX_CONTENT_LENGTH c) (UPLOAD_FOLDER c)
    (SHARED_FOLDER c) (DATABASE_FILE c) (SESSION_COOKIE_SECURE c)
    (SESSION_COOKIE_HTTPONLY c) (SESSION_COOKIE_SAMESITE c)
    (PERMANENT_SESSION_LIFETIME c) (MAX_USERS c) (STORAGE_LIMIT_PER_USER c)
    (HOST c) (PORT c) (DEBUG c) b.

Definition DevelopmentConfig : Config :=
  with_SESSION_COOKIE_SECURE false (with_DEBUG true Config_).

(** The class body assigns [os.environ.get('SECRET_KEY')] and goes on:
    the two lines that would raise [ValueError] for a missing key are
    comments. *)
Definition ProductionConfig : Config :=
  with_SECRET_KEY (env_SECRET_KEY environ)
    (with_SESSION_COOKIE_SECURE true (with_DEBUG false Config_)).

Definition TestingConfig : Config :=
  with_DEBUG true (with_TESTING true Config_).

(** The dictionary [config], read as [config.get(env, config['default'])]. *)
Definition config_get (env : string) : Config :=
  if bool_decide (env = "development") then DevelopmentConfig
  else if bool_decide (env = "production") then ProductionConfig
  else if bool_decide (env = "testing") then TestingConfig
  else DevelopmentConfig.

Definition get_config : Config :=
  config_get (default "development" (env_FLASK_ENV environ)).

End classes.

End config.

(* ================================================================== *)
(** * The standard-library calls of [routes.py] *)
(* ================================================================== *)

Module secrets.

(** [secrets.token_bytes(nbytes)]: the next [nbytes] bytes of the
    system random source. *)
Definition next_bytes (nbytes : nat) (w : World) : list Z :=
  map (λ i, entropy w (drawn w + i)%nat `mod` 256) (seq 0 nbytes).

Definition token_bytes (nbytes : nat) : M (list Z) := λ w,
  (Ok (next_bytes nbytes w), set_drawn (drawn w + nbytes)%nat w).

Definition hex_digit (n : Z) : ascii :=
  match n with
  | 0 => "0" | 1 => "1" | 2 => "2" | 3 => "3" | 4 => "4" | 5 => "5"
  | 6 => "6" | 7 => "7" | 8 => "8" | 9 => "9" | 10 => "a" | 11 => "b"
  | 12 => "c" | 13 => "d" | 14 => "e" | _ => "f"
  end%char.

(** [binascii.hexlify]: two hexadecimal digits for every byte. *)
Fixpoint hexlify (bs : list Z) : string :=
  match bs with
  | [] => EmptyString
  | b :: rest =>
      String (hex_digit (b `div` 16)) (String (hex_digit (b `mod` 16)) (hexlify rest))
  end.

(** [secrets.token_hex(nbytes)] *)
Definition token_hex (nbytes : nat) : M string :=
  bs ← token_bytes nbytes; ret (hexlify bs).

End secrets.

(* ================================================================== *)
(** * Server/routes.py *)
(* ================================================================== *)

Module routes.

(** What a view function returns.  Of the context of the rendered
    folder page the record of the folder and the owner flag are kept;
    the file listing is left out. *)
Inductive Response :=
  | Redirect (endpoint : string) (folder_id : option string)
  | RenderSharedFolder (folder_id : string) (info : Folder) (is_owner : bool)
  | SendFromDirectory (root : Root) (entry : string) (filename : string).

(** The flashed messages [(message, category)] of a request, and its
    response. *)
Record Reply := mkReply {
  flashed : list (string * string);
  response : Response
}.

(** [flash(message, category); return redirect(url_for(endpoint, ...))] *)
Definition flash_redirect (message category endpoint : string)
    (folder_id : option string) : M Reply :=
  ret (mkReply [(message, category)] (Redirect endpoint folder_id)).

(** [return response], nothing flashed. *)
Definition respond (r : Response) : M Reply := ret (mkReply [] r).

(** The uploaded file of a request: its declared name and its length
    in bytes, which [file.seek(0, os.SEEK_END); file.tell()] measures. *)
Record FileStorage := mkFileStorage {
  filename : string;
  content_length : Z
}.

(** A request that carries a form: the length of its body in bytes and
    the file under ['file'], if there is one. *)
Record Request := mkRequest {
  body_length : Z;
  file_field : option FileStorage
}.

(** What reading [request.files] gives a view: Werkzeug refuses to
    parse a body longer than [app.config['MAX_CONTENT_LENGTH']] and
    raises the 413 error instead; otherwise the view finds the file
    under ['file'], or none. *)
Definition request_files (cfg : config.Config) (request : Request)
    : result (option FileStorage) :=
  if bool_decide (body_length request > config.MAX_CONTENT_LENGTH cfg)
  then Raise RequestEntityTooLarge
  else Ok (file_field request).

(** The point of a view where a value is read that may raise. *)
Definition reading {A} (r : result A) : M A := λ w, (r, w).

(** The double quote of the messages. *)
Definition dq : string := String "034"%char EmptyString.

(** [os.path.join(UPLOAD_FOLDER, username)], made to exist.  A world
    keeps the directories that lie directly under a root, by name: that
    is where the path leads for a username that is a single path
    component, which is what the callers are meant to pass. *)
Definition get_user_storage_path (username : string) : M (Root * string) :=
  utils.ensure_directory_exists UserRoot username.

Definition get_shared_folder_path (folder_id : string) : M (Root * string) :=
  utils.ensure_directory_exists SharedRoot folder_id.

(** [os.path.exists(os.path.join(directory, filename))] on the disk. *)
Definition exists_in (directory : Root * string) (filename_ : string) : M bool :=
  gets (λ w, utils.path_exists
               (default ∅ (root_dirs directory.1 w !! directory.2)) filename_).

(** The loop
[[
    counter = 1
    while os.path.exists(filepath):
        filename = safe_filename(file.filename, counter)
        filepath = os.path.join(user_path, filename)
        counter += 1
]]
    entered with [filename = safe_filename(file.filename)], over the
    entries [d] of the directory.  [fuel] bounds the number of times the
    condition is tested; the result is the free name and the final
    counter. *)
Fixpoint while_exists (fuel : nat) (d : Dir) (original : string)
    (filename_ : string) (counter : nat) : option (string * nat) :=
  match fuel with
  | O => None
  | S fuel' =>
      if utils.path_exists d filename_
      then while_exists fuel' d original
             (utils.safe_filename original counter) (S counter)
      else Some (filename_, counter)
  end.

Definition unique_filename (directory : Root * string) (original : string)
    : M string :=
  d ← gets (λ w, default ∅ (root_dirs directory.1 w !! directory.2));
  match while_exists (size d + 2) d original (utils.safe_filename original 0) 1 with
  | Some (filename_, _) => ret filename_
  | None => raise NonTermination
  end.

(** [file.save(filepath)] *)
Definition file_save (directory : Root * string) (filename_ : string)
    (size_ : Z) : M unit :=
  modify (λ w,
    let d := default ∅ (root_dirs directory.1 w !! directory.2) in
    set_root_dirs directory.1
      (<[directory.2 := <[filename_ := size_]> d]> (root_dirs directory.1 w)) w) ;;
  modify (log (EvSaveFile directory.1 directory.2 filename_)).

(** [os.remove(filepath)] for a path that exists: a regular file goes,
    a directory raises. *)
Definition os_remove (directory : Root * string) (filename_ : string) : M unit :=
  d ← gets (λ w, default ∅ (root_dirs directory.1 w !! directory.2));
  match d !! filename_ with
  | Some _ =>
      modify (λ w, set_root_dirs directory.1
                     (<[directory.2 := delete filename_ d]>
                        (root_dirs directory.1 w)) w) ;;
      modify (log (EvRemove directory.1 directory.2 filename_))
  | None => raise IsADirectoryError
  end.

(** [shutil.rmtree(path)] *)
Definition rmtree (directory : Root * string) : M unit :=
  modify (λ w, set_root_dirs directory.1
                 (delete directory.2 (root_dirs directory.1 w)) w) ;;
  modify (log (EvRmtree directory.1 directory.2)).

(** [os.path.exists(folder_path)] *)
Definition exists_dir (directory : Root * string) : M bool :=
  gets (λ w, bool_decide (is_Some (root_dirs directory.1 w !! directory.2))).

Section views.
(** [app.config], and the two helpers of [utils] whose behaviour the
    views only pass through: the file-type filter and the rendering of
    a size in a message. *)
Variable cfg : config.Config.
Variable allowed_file : string → bool.
Variable format_file_size : Z → string.

(** [POST /upload], for the logged-in [username]; [files] is what
    reading [request.files] gives, see [request_files]. *)
Definition upload_file (username : string)
    (files : result (option FileStorage)) : M Reply :=
  file ← reading files;
  match file with
  | None => flash_redirect "No file selected." "error" "storage" None
  | Some file =>
      if bool_decide (filename file = "")
      then flash_redirect "No file selected." "error" "storage" None
      else if negb (allowed_file (filename file))
      then flash_redirect "File type not allowed." "error" "storage" None
      else
        user_path ← get_user_storage_path username;
        storage_used_ ← utils.get_directory_size user_path.1 user_path.2;
        let file_size := content_length file in
        if bool_decide (storage_used_ + file_size > config.STORAGE_LIMIT_PER_USER cfg)
        then flash_redirect "Not enough storage space." "error" "storage" None
        else
          filename_ ← unique_filename user_path (filename file);
          file_save user_path filename_ file_size;;
          flash_redirect
            ("File " +:+ dq +:+ filename_ +:+ dq +:+ " uploaded successfully! ("
               +:+ format_file_size file_size +:+ ")")
            "success" "storage" None
  end.

(** [POST /create_shared_folder]; [folder_name] is the stripped form
    field and [shared_with_users] is [request.form.getlist('shared_with')]. *)
Definition create_folder (username folder_name : string)
    (shared_with_users : list string) : M Reply :=
  if bool_decide (folder_name = "")
  then flash_redirect "Please enter a folder name." "error" "shared_folders" None
  else if bool_decide (shared_with_users = [])
  then flash_redirect "Please select at least one user to share with."
         "error" "shared_folders" None
  else
    folder_id ← secrets.token_hex 8;
    database.create_shared_folder folder_id folder_name username shared_with_users;;
    get_shared_folder_path folder_id;;
    flash_redirect
      ("Shared folder " +:+ dq +:+ folder_name +:+ dq +:+ " created successfully!")
      "success" "view_shared_folder" (Some folder_id).

Definition access_denied : M Reply :=
  flash_redirect "You do not have access to this folder." "error"
    "shared_folders" None.

(** [GET /shared/<folder_id>] *)
Definition view_shared_folder (username folder_id : string) : M Reply :=
  allowed ← database.can_access_folder username folder_id;
  if negb allowed then access_denied
  else
    folder_info ← database.get_shared_folder folder_id;
    get_shared_folder_path folder_id;;
    match folder_info with
    | Some info =>
        respond (RenderSharedFolder folder_id info
                   (bool_decide (owner info = username)))
    | None => raise TypeError
    end.

(** [POST /upload_to_shared/<folder_id>]; [files] is what reading
    [request.files] gives, see [request_files]. *)
Definition upload_to_shared (username folder_id : string)
    (files : result (option FileStorage)) : M Reply :=
  allowed ← database.can_access_folder username folder_id;
  if negb allowed then access_denied
  else
    file ← reading files;
    match file with
    | None => flash_redirect "No file selected." "error"
                "view_shared_folder" (Some folder_id)
    | Some file =>
        if bool_decide (filename file = "")
        then flash_redirect "No file selected." "error"
               "view_shared_folder" (Some folder_id)
        else if negb (allowed_file (filename file))
        then flash_redirect "File type not allowed." "error"
               "view_shared_folder" (Some folder_id)
        else
          folder_path ← get_shared_folder_path folder_id;
          filename_ ← unique_filename folder_path (filename file);
          file_save folder_path filename_ (content_length file);;
          flash_redirect
            ("File " +:+ dq +:+ filename_ +:+ dq +:+ " uploaded to shared folder! ("
               +:+ format_file_size (content_length file) +:+ ")")
            "success" "view_shared_folder" (Some folder_id)
    end.

(** [GET /download_shared/<folder_id>/<path:filename>] *)
Definition download_shared_file (username folder_id path_ : string) : M Reply :=
  allowed ← database.can_access_folder username folder_id;
  if negb allowed then access_denied
  else
    folder_path ← get_shared_folder_path folder_id;
    let filename_ := utils.basename path_ in
    present ← exists_in folder_path filename_;
    if negb present
    then flash_redirect "File not found." "error"
           "view_shared_folder" (Some folder_id)
    else
      (* send_from_directory serves regular files only; what it raises
         for anything else is caught by [except Exception] *)
      is_file ← gets (λ w, bool_decide (is_Some
                   (default ∅ (root_dirs folder_path.1 w !! folder_path.2)
                      !! filename_)));
      if (is_file : bool)
      then respond (SendFromDirectory folder_path.1 folder_path.2 filename_)
      else flash_redirect "Error downloading file." "error"
             "view_shared_folder" (Some folder_id).

(** [POST /delete_shared/<folder_id>/<path:filename>] *)
Definition delete_shared_file (username folder_id path_ : string) : M Reply :=
  allowed ← database.can_access_folder username folder_id;
  if negb allowed then access_denied
  else
    folder_path ← get_shared_folder_path folder_id;
    let filename_ := utils.basename path_ in
    present ← exists_in folder_path filename_;
    if negb present
    then flash_redirect "File not found." "error"
           "view_shared_folder" (Some folder_id)
    else
      os_remove folder_path filename_;;
      flash_redirect
        ("File " +:+ dq +:+ filename_ +:+ dq +:+ " deleted from shared folder.")
        "success" "view_shared_folder" (Some folder_id).

(** [POST /delete_shared_folder/<folder_id>] *)
Definition delete_folder (username folder_id : string) : M Reply :=
  folder_info ← database.get_shared_folder folder_id;
  match folder_info with
  | None => flash_redirect "Folder not found." "error" "shared_folders" None
  | Some info =>
      if bool_decide (owner info ≠ username)
      then flash_redirect "Only the folder owner can delete this folder."
             "error" "shared_folders" None
      else
        folder_path ← get_shared_folder_path folder_id;
        present ← exists_dir folder_path;
        when present (rmtree folder_path);;
        database.delete_shared_folder folder_id;;
        flash_redirect
          ("Shared folder " +:+ dq +:+ name info +:+ dq +:+ " deleted successfully.")
          "success" "shared_folders" None
  end.

End views.

End routes.

(* ================================================================== *)
(** * Server/database.py: the listing of a user's folders *)
(* ================================================================== *)

Module listing.

(** One dictionary of the list that [get_user_shared_folders] returns;
    its ['id'] is the key under which it is kept below. *)
Record Entry := mkEntry {
  entry_name : string;
  entry_owner : string;
  entry_is_owner : bool;
  entry_shared_with : list string
}.

(** The list is kept by the id of each entry: the ids are the keys of
    the dictionary the loop runs over, so every id occurs once.  The
    order of the list is the order of the keys in the store file, which
    a [Document] does not record. *)
Definition get_user_shared_folders (username : string)
    : M (gmap string Entry) :=
  data ← database.load_db;
  ret ((λ info, mkEntry (name info) (owner info)
                  (bool_decide (owner info = username)) (shared_with info))
       <$> filter (λ kv, database.is_member username kv.2 = true)
             (folders_of data)).

End listing.

(* ================================================================== *)
(** * Server/routes.py: accounts, personal files *)
(* ================================================================== *)

Module pages.

(** The keys of the Flask session that the views use, and its
    [permanent] flag. *)
Record Session := mkSession {
  session_username : option string;
  session_login_time : option string;
  session_permanent : bool
}.

(** [session.clear()] *)
Definition cleared : Session := mkSession None None false.

(** A value of a template context. *)
Inductive Val :=
  | VStr (s : string)
  | VInt (n : Z).

Inductive Outcome :=
  | Redirect (endpoint : string)
  | Render (template : string) (context : list (string * Val)).

Record Reply := mkReply {
  flashed : list (string * string);
  outcome : Outcome
}.

(** The fields of the registration form; [form_username] and
    [form_email] are the stripped values. *)
Record RegisterForm := mkRegisterForm {
  form_username : string;
  form_email : string;
  form_password : string;
  form_confirm_password : string
}.

(** The fields of the login form; [login_username] is the stripped
    value. *)
Record LoginForm := mkLoginForm {
  login_username : string;
  login_password : string
}.

(** [len(s)] of a Python string, held here as its UTF-8 bytes: the
    number of characters, which is the number of bytes that do not
    continue a character. *)
Definition is_continuation (c : ascii) : bool :=
  let n := nat_of_ascii c in (128 <=? n)%nat && (n <? 192)%nat.

Definition len (s : string) : nat :=
  length (filter (λ c, is_continuation c = false) (list_ascii_of_string s)).

(** The decorator: the wrapped view runs for the username of the
    session, and not at all without one. *)
Definition login_required (view : string → M routes.Reply) (session : Session)
    : M routes.Reply :=
  match session_username session with
  | None => routes.flash_redirect "Please log in to access this page."
              "warning" "login" None
  | Some username => view username
  end.

(** [GET /] *)
Definition index (session : Session) : Outcome :=
  match session_username session with
  | Some _ => Redirect "storage"
  | None => Redirect "login"
  end.

(** Modelled from the spec: [utils.get_files_in_directory] is not part
    of the sources.  The spec: non-recursive listing of regular files
    only, sorted by name.  Only the length of the listing is used. *)
Definition file_count (root : Root) (entry : string) : M Z :=
  gets (λ w, Z.of_nat (size (default ∅ (root_dirs root w !! entry)))).

Section views.
(** [app.config]; the helpers of [utils] that the views pass values
    through ([hash_password] draws a salt, [verify_password] and
    [format_file_size] are functions of their arguments); and the text
    of the message of a successful registration, an f-string that
    formats the storage limit as a float. *)
Variable cfg : config.Config.
Variable hash_password : string → M (string * string).
Variable verify_password : string → string → string → bool.
Variable format_file_size : Z → string.
Variable registration_message : Z → string.

(** [/register]; [form] is [None] for a [GET]. *)
Definition register (form : option RegisterForm) : M Reply :=
  match form with
  | None => ret (mkReply [] (Render "register.html" []))
  | Some form =>
      let username := form_username form in
      let email_ := form_email form in
      let password_ := form_password form in
      if bool_decide (username = "") || bool_decide (email_ = "")
         || bool_decide (password_ = "")
      then ret (mkReply [("All fields are required.", "error")]
                  (Render "register.html" []))
      else if bool_decide (len username < 3)%nat
      then ret (mkReply [("Username must be at least 3 characters.", "error")]
                  (Render "register.html" []))
      else if bool_decide (len password_ < 8)%nat
      then ret (mkReply [("Password must be at least 8 characters.", "error")]
                  (Render "register.html" []))
      else if bool_decide (password_ ≠ form_confirm_password form)
      then ret (mkReply [("Passwords do not match.", "error")]
                  (Render "register.html" []))
      else
        hashed ← hash_password password_;
        created ← database.create_user username email_ hashed.1 hashed.2
                    (config.STORAGE_LIMIT_PER_USER cfg);
        if (created.1 : bool)
        then
          routes.get_user_storage_path username;;
          ret (mkReply
                 [(registration_message (config.STORAGE_LIMIT_PER_USER cfg),
                   "success")]
                 (Redirect "login"))
        else ret (mkReply [(created.2, "error")] (Render "register.html" []))
  end.

Definition invalid_login : Reply :=
  mkReply [("Invalid username or password.", "error")] (Render "login.html" []).

(** [/login]; [form] is [None] for a [GET].  The session after the
    request is returned with the reply. *)
Definition login (session : Session) (form : option LoginForm)
    : M (Reply * Session) :=
  match session_username session with
  | Some _ => ret (mkReply [] (Redirect "storage"), session)
  | None =>
      match form with
      | None => ret (mkReply [] (Render "login.html" []), session)
      | Some form =>
          let username := login_username form in
          let password_ := login_password form in
          if bool_decide (username = "") || bool_decide (password_ = "")
          then ret (mkReply [("Please enter both username and password.", "error")]
                      (Render "login.html" []), session)
          else
            user ← database.get_user username;
            match user with
            | None => ret (invalid_login, session)
            | Some user =>
                if verify_password (salt user) (password user) password_
                then
                  t ← database.now_isoformat;
                  database.update_user_activity username;;
                  ret (mkReply [("Welcome back, " +:+ username +:+ "!", "success")]
                         (Redirect "storage"),
                       mkSession (Some username) (Some t) true)
                else ret (invalid_login, session)
            end
      end
  end.

(** [GET /logout], under [login_required]. *)
Definition logout (session : Session) : Reply * Session :=
  match session_username session with
  | None => (mkReply [("Please log in to access this page.", "warning")]
               (Redirect "login"), session)
  | Some username =>
      (mkReply [("Goodbye, " +:+ username +:+ "!", "success")] (Redirect "login"),
       cleared)
  end.

(** [GET /storage], for the logged-in [username].  Of the context the
    listing [files] and the float [storage_percent] are left out. *)
Definition storage (username : string) : M Reply :=
  user_path ← routes.get_user_storage_path username;
  count ← file_count user_path.1 user_path.2;
  storage_used_ ← utils.get_directory_size user_path.1 user_path.2;
  let storage_limit_ := config.STORAGE_LIMIT_PER_USER cfg in
  database.update_user_storage username storage_used_;;
  ret (mkReply []
         (Render "storage.html"
            [("username", VStr username);
             ("file_count", VInt count);
             ("storage_used", VStr (format_file_size storage_used_));
             ("storage_limit", VStr (format_file_size storage_limit_));
             ("storage_used_bytes", VInt storage_used_);
             ("storage_limit_bytes", VInt storage_limit_)])).

(** [GET /account], for the logged-in [username].  The arguments of
    [render_template] are evaluated last: [user['email']] raises
    [TypeError] when [get_user] returned [None]. *)
Definition account (username : string) : M Reply :=
  user ← database.get_user username;
  user_path ← routes.get_user_storage_path username;
  storage_used_ ← utils.get_directory_size user_path.1 user_path.2;
  count ← file_count user_path.1 user_path.2;
  match user with
  | None => raise TypeError
  | Some user =>
      ret (mkReply []
             (Render "account.html"
                [("username", VStr username);
                 ("email", VStr (email user));
                 ("created_at", VStr (created_at user));
                 ("storage_used", VStr (format_file_size storage_used_));
                 ("storage_limit",
                  VStr (format_file_size (config.STORAGE_LIMIT_PER_USER cfg)));
                 ("file_count", VInt count)]))
  end.

End views.

(** [GET /download/<path:filename>], for the logged-in [username]. *)
Definition download_file (username path_ : string) : M routes.Reply :=
  user_path ← routes.get_user_storage_path username;
  let filename_ := utils.basename path_ in
  present ← routes.exists_in user_path filename_;
  if negb present
  then routes.flash_redirect "File not found." "error" "storage" None
  else
    (* send_from_directory serves regular files only; what it raises
       for anything else is caught by [except Exception] *)
    is_file ← gets (λ w, bool_decide (is_Some
                 (default ∅ (root_dirs user_path.1 w !! user_path.2)
                    !! filename_)));
    if (is_file : bool)
    then routes.respond
           (routes.SendFromDirectory user_path.1 user_path.2 filename_)
    else routes.flash_redirect "Error downloading file." "error" "storage" None.

(** [POST /delete/<path:filename>], for the logged-in [username]. *)
Definition delete_file (username path_ : string) : M routes.Reply :=
  user_path ← routes.get_user_storage_path username;
  let filename_ := utils.basename path_ in
  present ← routes.exists_in user_path filename_;
  if negb present
  then routes.flash_redirect "File not found." "error" "storage" None
  else
    routes.os_remove user_path filename_;;
    routes.flash_redirect
      ("File " +:+ routes.dq +:+ filename_ +:+ routes.dq
         +:+ " deleted successfully.")
      "success" "storage" None.

End pages.

(* ================================================================== *)
(** * Server/app_production.py *)
(* ================================================================== *)

Module app_production.

(** The headers of a response.  Header names compare without regard to
    case, so a header is kept under its lower-case name. *)
Definition header_set (name_ value : string) (headers : gmap string string)
    : gmap string string :=
  <[config.lower name_ := value]> headers.

Definition header_get (name_ : string) (headers : gmap string string)
    : option string :=
  headers !! config.lower name_.

(** The [after_request] hook of [create_app]. *)
Definition set_security_headers (cfg : config.Config)
    (headers : gmap string string) : gmap string string :=
  let h1 := header_set "X-Content-Type-Options" "nosniff" headers in
  let h2 := header_set "X-Frame-Options" "DENY" h1 in
  let h3 := header_set "X-XSS-Protection" "1; mode=block" h2 in
  if config.SESSION_COOKIE_SECURE cfg
  then header_set "Strict-Transport-Security"
         "max-age=31536000; includeSubDomains" h3
  else h3.

End app_production.

(* ================================================================== *)
(** * Vocabulary of the statements *)
(* ================================================================== *)

(** ** File names *)

(** A character that may appear in a stored name: no separator, no
    null byte. *)
Definition plain (c : ascii) : Prop := utils.is_sep c = false ∧ c ≠ utils.NUL.

(** A decimal digit. *)
Definition is_digit (c : ascii) : Prop := is_Some (Ascii.is_nat c).

(** ** The store and the disk *)

(** What [load_db] returns and leaves behind, by the state of the file. *)
Definition loaded (w : World) : Document * World :=
  match db_file w with
  | Some (Json data) => (data, w)
  | Some (Garbage _) => (empty_document, w)
  | None => (empty_document,
             log EvInitDb (set_db_file (Some (Json empty_document)) w))
  end.

(** The world after [ensure_directory_exists]. *)
Definition ensured (root : Root) (entry : string) (w : World) : World :=
  match root_dirs root w !! entry with
  | Some _ => w
  | None => log (EvMakedirs root entry)
              (set_root_dirs root (<[entry := ∅]> (root_dirs root w)) w)
  end.

(** The record that [create_user] inserts, from the two clock readings. *)
Definition new_user (email_ salt_ hashed_password : string) (storage_limit_ : Z)
    (t_created t_active : string) : User :=
  {| email := email_; salt := salt_; password := hashed_password;
     created_at := t_created; last_active := t_active;
     storage_used := 0; storage_limit := storage_limit_ |}.

Definition same_except_last_active (u u' : User) : Prop :=
  email u' = email u ∧ salt u' = salt u ∧ password u' = password u
  ∧ created_at u' = created_at u ∧ storage_used u' = storage_used u
  ∧ storage_limit u' = storage_limit u.

Definition same_except_storage_used (u u' : User) : Prop :=
  email u' = email u ∧ salt u' = salt u ∧ password u' = password u
  ∧ created_at u' = created_at u ∧ last_active u' = last_active u
  ∧ storage_limit u' = storage_limit u.


(** ** Requests and replies *)

(** The requests that name a shared folder. *)
Inductive Operation :=
  | View
  | Upload (files : result (option routes.FileStorage))
  | Download (path_ : string)
  | DeleteFile (path_ : string)
  | DeleteFolder.

Definition perform (allowed_file : string → bool)
    (format_file_size : Z → string) (op : Operation)
    (username folder_id : string)
    : M routes.Reply :=
  match op with
  | View => routes.view_shared_folder username folder_id
  | Upload files =>
      routes.upload_to_shared allowed_file format_file_size username folder_id files
  | Download path_ => routes.download_shared_file username folder_id path_
  | DeleteFile path_ => routes.delete_shared_file username folder_id path_
  | DeleteFolder => routes.delete_folder username folder_id
  end.

Definition denied_reply : routes.Reply :=
  routes.mkReply [("You do not have access to this folder.", "error")]
    (routes.Redirect "shared_folders" None).

Definition not_found_reply : routes.Reply :=
  routes.mkReply [("Folder not found.", "error")]
    (routes.Redirect "shared_folders" None).

Definition only_owner_reply : routes.Reply :=
  routes.mkReply [("Only the folder owner can delete this folder.", "error")]
    (routes.Redirect "shared_folders" None).

Definition deleted_reply (info : Folder) : routes.Reply :=
  routes.mkReply
    [("Shared folder " +:+ routes.dq +:+ name info +:+ routes.dq
        +:+ " deleted successfully.", "success")]
    (routes.Redirect "shared_folders" None).

Definition created_reply (folder_name folder_id : string) : routes.Reply :=
  routes.mkReply
    [("Shared folder " +:+ routes.dq +:+ folder_name +:+ routes.dq
        +:+ " created successfully!", "success")]
    (routes.Redirect "view_shared_folder" (Some folder_id)).

Definition quota_reply : routes.Reply :=
  routes.mkReply [("Not enough storage space.", "error")]
    (routes.Redirect "storage" None).

Definition uploaded_reply (format_file_size : Z → string) (stored : string)
    (size_ : Z) : routes.Reply :=
  routes.mkReply
    [("File " +:+ routes.dq +:+ stored +:+ routes.dq
        +:+ " uploaded successfully! (" +:+ format_file_size size_ +:+ ")",
      "success")]
    (routes.Redirect "storage" None).

(** ** Tokens *)

(** A lower-case hexadecimal digit. *)
Definition is_hex (c : ascii) : bool :=
  bool_decide (c ∈ list_ascii_of_string "0123456789abcdef").

(** A token of [bits] bits written in hexadecimal: four bits a digit. *)
Definition is_hex_token (bits : nat) (s : string) : Prop :=
  (4 * String.length s = bits)%nat
  ∧ Forall (λ c, is_hex c = true) (list_ascii_of_string s).

(** The value of a hexadecimal digit. *)
Definition hex_value (c : ascii) : Z :=
  match c with
  | "0" => 0 | "1" => 1 | "2" => 2 | "3" => 3 | "4" => 4 | "5" => 5
  | "6" => 6 | "7" => 7 | "8" => 8 | "9" => 9 | "a" => 10 | "b" => 11
  | "c" => 12 | "d" => 13 | "e" => 14 | _ => 15
  end%char.

(** ** Sample inputs *)

(** A registered user. *)
Definition alice : User :=
  new_user "alice@example.org" "5a17" "c0ffee" 1024 "2024-01-01T00:00:00"
    "2024-01-01T00:00:00".

(** A world with empty storage roots around a given store file. *)
Definition bare_world (file : option Content) : World :=
  mkWorld file None ∅ ∅ (λ n, "2024-01-02T00:00:0" +:+ pretty n) 0
    (λ n, Z.of_nat n * 37 + 11) 0 [].

(** A store with the single user alice. *)
Definition one_user_world : World :=
  bare_world (Some (Json (mkDocument {[ "alice" := alice ]} (Some ∅)))).

(** A store with the folder "Team" of alice, shared with bob. *)
Definition team : Folder :=
  mkFolder "Team" "alice" ["bob"] "2024-01-01T12:00:00".

Definition team_world : World :=
  bare_world (Some (Json (mkDocument {[ "alice" := alice ]}
                            (Some {[ "00112233aabbccdd" := team ]})))).

(** alice holds one file of 1 GiB less 10 bytes. *)
Definition nearly_full_world : World :=
  mkWorld None None {[ "alice" := {[ "a.bin" := 1073741814 ]} ]} ∅
    (λ n, pretty n) 0 (λ _, 0) 0 [].

(** An environment that sets [MAX_USERS=1] and nothing else. *)
Definition max_users_1 : config.Environ :=
  config.mkEnviron None None None None None (Some 1) None None None None None.

(** [FLASK_ENV=production] and nothing else in the environment. *)
Definition production_only : config.Environ :=
  config.mkEnviron None None None None None None None None None None
    (Some "production").

(** The configuration under [STORAGE_LIMIT_GB=1]. *)
Definition one_gib : config.Config :=
  config.get_config
    (config.mkEnviron None None None None None None (Some 1) None None None None)
    "00".

(** The configuration of an empty environment: 10 GiB for each user,
    2 GiB for the body of a request. *)
Definition default_config : config.Config :=
  config.get_config
    (config.mkEnviron None None None None None None None None None None None)
    "00".

(** A multipart request that carries a file of 3 GiB. *)
Definition three_gib_request : routes.Request :=
  routes.mkRequest 3221225984
    (Some (routes.mkFileStorage "big.iso" 3221225472)).

(** ** Statements of the spec that the code does not meet *)


(** What C1 says of an upload within the quota: it is stored. *)
Definition quota_claim (cfg : config.Config) (allowed_file : string → bool)
    (format_file_size : Z → string) (w : World) (username : string)
    (request : routes.Request) (file : routes.FileStorage) : Prop :=
  routes.file_field request = Some file →
  routes.content_length file ≤ routes.body_length request →
  utils.dir_size (default ∅ (user_storage w !! username))
    + routes.content_length file ≤ config.STORAGE_LIMIT_PER_USER cfg →
  ∃ stored w',
    routes.upload_file cfg allowed_file format_file_size username
      (routes.request_files cfg request) w
    = (Ok (uploaded_reply format_file_size stored (routes.content_length file)),
       w').


(** What C3 says of the capacity check: at or above the configured
    maximum, a new username is refused. *)
Definition capacity_claim (cfg : config.Config) (w : World)
    (username email_ salt_ hashed_password : string) (storage_limit_ : Z) : Prop :=
  users (loaded w).1 !! username = None →
  config.MAX_USERS cfg ≤ Z.of_nat (size (users (loaded w).1)) →
  (database.create_user username email_ salt_ hashed_password storage_limit_ w).1
  = Ok (false, "Maximum number of users reached").

(** What C2 says of an operation: the reply to an outsider of an
    existing folder is the reply to a request for a folder id that is
    not in the store. *)
Definition same_denial_claim (allowed_file : string → bool)
    (format_file_size : Z → string) (op : Operation) (w w' : World)
    (username folder_id folder_id' : string) : Prop :=
  ∀ info,
    (database.get_shared_folder folder_id w).1 = Ok (Some info) →
    owner info ≠ username → username ∉ shared_with info →
    (database.get_shared_folder folder_id' w').1 = Ok None →
    (perform allowed_file format_file_size op username folder_id w).1
    = (perform allowed_file format_file_size op username folder_id' w').1.

(** The identifier that a successful [create_folder] redirects to. *)
Definition id_claim (bits : nat) (w : World) (username folder_name : string)
    (shared_with_users : list string) : Prop :=
  ∀ folder_id reply w',
    routes.create_folder username folder_name shared_with_users w
      = (Ok reply, w') →
    routes.response reply = routes.Redirect "view_shared_folder" (Some folder_id) →
    is_hex_token bits folder_id.

(** ** More of the store *)

(** The world after [save_db]: the file that was there becomes the
    backup, the document becomes the file. *)
Definition saved (data : Document) (w : World) : World :=
  match db_file w with
  | Some c => log (EvDump data) (set_db_file (Some (Json data))
                (log EvBackup (set_db_backup (Some c) w)))
  | None => log (EvDump data) (set_db_file (Some (Json data)) w)
  end.

(** The store file and the backup of a world, as files that hold text. *)
Definition files_of (w : World) : store_file.Files :=
  store_file.mkFiles (store_file.Text <$> db_file w)
    (store_file.Text <$> db_backup w).

(** The record that [create_shared_folder] stores. *)
Definition new_folder (folder_name owner_ : string) (shared_with_ : list string)
    (t : string) : Folder :=
  {| name := folder_name; owner := owner_; shared_with := shared_with_;
     folder_created_at := t |}.

(** The entry of the listing for a folder, as [username] sees it. *)
Definition entry_of (username : string) (info : Folder) : listing.Entry :=
  listing.mkEntry (name info) (owner info)
    (bool_decide (owner info = username)) (shared_with info).

(** A name of a directory entry: a single path component, neither
    empty nor ["."] nor [".."]. *)
Definition entry_name (s : string) : Prop :=
  s ≠ "" ∧ s ≠ "." ∧ s ≠ ".."
  ∧ Forall (λ c, c ≠ "/"%char) (list_ascii_of_string s).

(** The replies of [delete_file]. *)
Definition file_deleted_reply (filename_ : string) : routes.Reply :=
  routes.mkReply
    [("File " +:+ routes.dq +:+ filename_ +:+ routes.dq
        +:+ " deleted successfully.", "success")]
    (routes.Redirect "storage" None).

Definition file_not_found_reply : routes.Reply :=
  routes.mkReply [("File not found.", "error")] (routes.Redirect "storage" None).

(** The names of the four headers that the hook writes. *)
Definition security_header_names : list string :=
  ["x-content-type-options"; "x-frame-options"; "x-xss-protection";
   "strict-transport-security"].

(* ================================================================== *)
(** * Facts about the file-name helpers *)
(* ================================================================== *)

Section filename_facts.
Import utils.

Lemma split_on_nonempty p s : split_on p s ≠ [].
Proof. destruct s as [|c s]; simpl; [done|]. by repeat case_match. Qed.

(** Every piece of a split is free of separators and made of characters
    of the text. *)
Lemma split_on_pieces p s seg :
  seg ∈ split_on p s → Forall (λ c, p c = false ∧ c ∈ s) seg.
Proof.
  revert seg. induction s as [|c s IH]; intros seg; simpl.
  - intros ->%list_elem_of_singleton. constructor.
  - destruct (p c) eqn:Hc.
    + intros [->|Hin]%elem_of_cons; [constructor|].
      eapply Forall_impl; [by apply IH|]. intros x [? ?]. split; [done|].
      by right.
    + destruct (split_on p s) as [|seg0 segs] eqn:Hs.
      * by destruct (split_on_nonempty p s).
      * intros [->|Hin]%elem_of_cons.
        -- constructor; [split; [done|by left]|].
           eapply Forall_impl; [apply IH; by left|].
           intros x [? ?]; split; [done|by right].
        -- eapply Forall_impl; [apply IH; by right|].
           intros x [? ?]; split; [done|by right].
Qed.

(** A text without separators is its own single piece. *)
Lemma split_on_plain p s :
  Forall (λ c, p c = false) s → split_on p s = [s].
Proof.
  induction 1 as [|c s Hc _ IH]; simpl; [done|]. by rewrite Hc, IH.
Qed.

Lemma last_default_or_elem {A} (l : list A) (d : A) :
  List.last l d = d ∨ List.last l d ∈ l.
Proof.
  induction l as [|x l IH]; [by left|].
  destruct l as [|y l]; [right; by left|].
  change (List.last (x :: y :: l) d) with (List.last (y :: l) d).
  destruct IH as [->|?]; [by left|right; by right].
Qed.

Lemma safe_basename_plain original : Forall plain (safe_basename original).
Proof.
  unfold safe_basename.
  match goal with |- Forall _ (List.last ?l _) =>
    destruct (last_default_or_elem l []) as [->|Hin] end; [constructor|].
  apply list_elem_of_filter in Hin as [_ Hin].
  apply split_on_pieces in Hin.
  eapply Forall_impl; [exact Hin|].
  intros c [Hsep Hc]. split; [done|].
  by apply list_elem_of_filter in Hc as [? _].
Qed.

Lemma safe_basename_not_dotdot original : safe_basename original ≠ dotdot.
Proof.
  unfold safe_basename.
  match goal with |- List.last ?l _ ≠ _ =>
    destruct (last_default_or_elem l []) as [->|Hin] end; [done|].
  by apply list_elem_of_filter in Hin as [? _].
Qed.

Lemma rsplit_dot_app s stem ext : rsplit_dot s = Some (stem, ext) → stem ++ ext = s.
Proof.
  revert stem ext. induction s as [|c s IH]; intros stem ext; simpl; [done|].
  destruct (rsplit_dot s) as [[stem' ext']|].
  - intros [= <- <-]. simpl. f_equal. by apply IH.
  - case_bool_decide; [|done]. by intros [= <- <-].
Qed.

Lemma splitext_app s : (splitext s).1 ++ (splitext s).2 = s.
Proof.
  unfold splitext. destruct (rsplit_dot s) as [[stem ext]|] eqn:Hs.
  - case_match; simpl; [apply app_nil_r|by apply rsplit_dot_app].
  - apply app_nil_r.
Qed.

Lemma pretty_N_char_digit x : is_digit (pretty_N_char x).
Proof.
  unfold pretty_N_char, is_digit. repeat case_match; by eexists.
Qed.

Lemma pretty_N_go_digits x s :
  Forall is_digit (list_ascii_of_string s) →
  Forall is_digit (list_ascii_of_string (pretty_N_go x s)).
Proof.
  revert s. induction (N.lt_wf_0 x) as [x _ IH]; intros s Hs.
  destruct (decide (x = 0)%N) as [->|Hx]; [by rewrite pretty_N_go_0|].
  rewrite pretty_N_go_step by lia. apply IH.
  - apply N.div_lt; lia.
  - simpl. constructor; [apply pretty_N_char_digit|done].
Qed.

Lemma str_nat_digits n : Forall is_digit (str_nat n).
Proof.
  unfold str_nat, pretty, pretty_nat, pretty, pretty_N.
  case_decide.
  - repeat constructor. by exists 0%nat.
  - apply pretty_N_go_digits. constructor.
Qed.

Lemma digit_plain c : is_digit c → plain c ∧ c ≠ "."%char.
Proof.
  unfold is_digit, Ascii.is_nat, plain. intros [n Hn].
  repeat case_match; by simplify_eq.
Qed.

Lemma str_nat_inj : Inj (=) (=) str_nat.
Proof.
  intros m n H. unfold str_nat in H.
  apply (f_equal string_of_list_ascii) in H.
  rewrite !string_of_list_ascii_of_string in H. by apply (inj pretty).
Qed.

(** The returned name holds no separator and no null byte. *)
Lemma safe_filename_chars_plain original n :
  Forall plain (safe_filename_chars original n).
Proof.
  unfold safe_filename_chars. destruct n as [|n].
  { apply safe_basename_plain. }
  pose proof (safe_basename_plain original) as Hb.
  rewrite <-(splitext_app (safe_basename original)) in Hb.
  apply Forall_app in Hb as [Hstem Hext].
  destruct (splitext (safe_basename original)) as [stem ext]; simpl in *.
  apply Forall_app; split; [done|]. constructor; [by split|].
  apply Forall_app; split; [|done].
  eapply Forall_impl; [apply str_nat_digits|]. intros c Hc.
  by apply digit_plain.
Qed.

(** The returned name is never [".."]. *)
Lemma safe_filename_chars_not_dotdot original n :
  safe_filename_chars original n ≠ dotdot.
Proof.
  unfold safe_filename_chars. destruct n as [|n].
  { apply safe_basename_not_dotdot. }
  destruct (splitext (safe_basename original)) as [stem ext].
  intros H.
  assert ("_"%char ∈ dotdot) as Hin.
  { rewrite <-H. apply elem_of_app; right. by left. }
  apply list_elem_of_In in Hin. simpl in Hin. intuition discriminate.
Qed.

(** Positive disambiguators give pairwise different names, all
    different from the name without disambiguator. *)
Lemma safe_filename_chars_inj original m n :
  safe_filename_chars original (S m) = safe_filename_chars original (S n) →
  m = n.
Proof.
  unfold safe_filename_chars.
  destruct (splitext (safe_basename original)) as [stem ext].
  intros H. apply app_inv_head in H. injection H as H.
  apply app_inv_tail in H. by apply str_nat_inj in H as [= ->].
Qed.

Lemma safe_filename_inj original m n :
  safe_filename original (S m) = safe_filename original (S n) → m = n.
Proof.
  unfold safe_filename. intros H.
  apply (f_equal list_ascii_of_string) in H.
  rewrite !list_ascii_of_string_of_list_ascii in H.
  by apply safe_filename_chars_inj in H.
Qed.

(** A name with a positive disambiguator is a plain entry name: not
    empty, not ["."], not [".."]. *)
Lemma safe_filename_not_special original n :
  let s := safe_filename original (S n) in s ≠ "" ∧ s ≠ "." ∧ s ≠ "..".
Proof.
  assert (In "_"%char
            (safe_filename_chars (list_ascii_of_string original) (S n))) as Hin.
  { unfold safe_filename_chars.
    destruct (splitext (safe_basename _)) as [stem ext].
    apply in_or_app; right. by left. }
  simpl. unfold safe_filename.
  repeat split; intros H; apply (f_equal list_ascii_of_string) in H;
    rewrite list_ascii_of_string_of_list_ascii in H; rewrite H in Hin;
    simpl in Hin; intuition discriminate.
Qed.

End filename_facts.

(** ** Where a safe name leads *)

Lemma plain_not_sep c : plain c → path.sep c = false.
Proof.
  intros [Hsep _]. unfold path.sep.
  unfold utils.is_sep in Hsep. by apply orb_false_elim in Hsep as [? _].
Qed.

Lemma split_on_sep_plain name_ :
  Forall plain name_ → utils.split_on path.sep name_ = [name_].
Proof.
  intros H. apply split_on_plain. eapply Forall_impl; [exact H|].
  intros c. apply plain_not_sep.
Qed.

(** A name made of plain characters, other than [".."], resolves to the
    directory itself or to an entry directly inside it. *)
Lemma resolve_plain directory name_ :
  Forall plain name_ → name_ ≠ utils.dotdot →
  path.resolve directory name_ = directory
  ∨ path.resolve directory name_ = directory ++ [name_].
Proof.
  intros Hplain Hdd. unfold path.resolve.
  rewrite (split_on_sep_plain name_ Hplain).
  assert (match name_ with
          | c :: _ => if path.sep c then [] else directory
          | [] => directory
          end = directory) as ->.
  { destruct Hplain as [|c l Hc _]; [done|]. by rewrite (plain_not_sep c Hc). }
  simpl. unfold path.normpath_step.
  case_bool_decide; [by left|]. case_bool_decide; [done|by right].
Qed.

(** C5.  For every input string and every disambiguator, the name that
    [safe_filename] returns holds no path separator (neither ['/'] nor
    the backslash) and no null byte, is not [".."], and, under the POSIX
    path rules, resolves from any target directory to the directory
    itself or to an entry directly inside it: it never leads outside
    the target directory. *)
Theorem safe_filename_stays_inside (directory : list (list ascii))
    (original : string) (n : nat) :
  let name_ := list_ascii_of_string (utils.safe_filename original n) in
  Forall plain name_
  ∧ name_ ≠ utils.dotdot
  ∧ directory `prefix_of` path.resolve directory name_
  ∧ (path.resolve directory name_ = directory
     ∨ path.resolve directory name_ = directory ++ [name_]).
Proof.
  simpl. unfold utils.safe_filename.
  rewrite list_ascii_of_string_of_list_ascii.
  pose proof (safe_filename_chars_plain (list_ascii_of_string original) n) as Hp.
  pose proof (safe_filename_chars_not_dotdot (list_ascii_of_string original) n) as Hd.
  pose proof (resolve_plain directory _ Hp Hd) as Hr.
  repeat split; try done.
  destruct Hr as [-> | ->]; [done|]. by apply prefix_app_r.
Qed.

(* ================================================================== *)
(** * The duplicate-avoidance loop *)
(* ================================================================== *)

Section duplicate_loop.
Variable d : Dir.
Variable original : string.

(** A candidate with a positive disambiguator exists on disk only as an
    entry of the directory. *)
Lemma candidate_exists_entry j :
  utils.path_exists d (utils.safe_filename original (S j)) = true → utils.safe_filename original (S j) ∈ dom d.
Proof.
  destruct (safe_filename_not_special original j) as (H1 & H2 & H3).
  unfold utils.path_exists.
  rewrite !bool_decide_eq_false_2 by done. simpl.
  intros H%bool_decide_eq_true. by apply elem_of_dom.
Qed.

(** Pigeonhole: of the candidates [1 .. size d + 1], one is free. *)
Lemma free_candidate :
  ∃ j, (j ≤ size d)%nat ∧ utils.path_exists d (utils.safe_filename original (S j)) = false.
Proof.
  set (js := seq 0 (S (size d))).
  destruct (decide (Exists (λ j, utils.path_exists d (utils.safe_filename original (S j)) = false) js))
    as [Hex|Hall].
  { apply Exists_exists in Hex as (j & Hj & Hfree). exists j. split; [|done].
    apply elem_of_seq in Hj. lia. }
  exfalso. apply not_Exists_Forall in Hall; [|intros j; apply _].
  assert (Forall (λ j, utils.safe_filename original (S j) ∈ dom d) js) as Hdom.
  { eapply Forall_impl; [exact Hall|]. intros j Hj. simpl in Hj.
    apply candidate_exists_entry. by destruct (utils.path_exists d _). }
  assert (NoDup ((λ j, utils.safe_filename original (S j)) <$> js)) as Hnd.
  { apply NoDup_fmap_2_strong; [|apply NoDup_seq].
    intros i j _ _ Hij. by apply safe_filename_inj in Hij. }
  assert (list_to_set ((λ j, utils.safe_filename original (S j)) <$> js) ⊆ dom d) as Hsub.
  { intros x Hx. apply elem_of_list_to_set, list_elem_of_fmap in Hx as (j & -> & Hj).
    by eapply Forall_forall in Hdom. }
  apply subseteq_size in Hsub.
  rewrite size_list_to_set, length_fmap, size_dom in Hsub by done.
  unfold js in Hsub. rewrite length_seq in Hsub. lia.
Qed.

(** The loop stops at the first free candidate at the latest. *)
Lemma while_exists_finds m : ∀ fuel filename_ counter,
  utils.path_exists d (utils.safe_filename original (counter + m)) = false →
  (m + 2 ≤ fuel)%nat →
  ∃ found final,
    routes.while_exists fuel d original filename_ counter = Some (found, final)
    ∧ utils.path_exists d found = false
    ∧ (counter ≤ final ≤ counter + m + 1)%nat.
Proof.
  induction m as [|m IH]; intros fuel filename_ counter Hfree Hfuel.
  - destruct fuel as [|[|fuel]]; [lia..|]. simpl.
    destruct (utils.path_exists d filename_) eqn:Hfn.
    + rewrite Nat.add_0_r in Hfree. rewrite Hfree.
      eexists _, _. split; [done|]. split; [done|lia].
    + eexists _, _. split; [done|]. split; [done|lia].
  - destruct fuel as [|fuel]; [lia|]. simpl.
    destruct (utils.path_exists d filename_) eqn:Hfn.
    + destruct (IH fuel (utils.safe_filename original counter) (S counter)) as (found & final & ? & ? & ?).
      { by replace (S counter + m)%nat with (counter + S m)%nat by lia. }
      { lia. }
      exists found, final. split; [done|]. split; [done|lia].
    + eexists _, _. split; [done|]. split; [done|lia].
Qed.

(** With [size d + 2] tests of the condition the loop has found a free
    name, after at most [size d + 1] runs of its body. *)
Lemma while_exists_enough extra :
  ∃ found final,
    routes.while_exists (size d + 2 + extra) d original (utils.safe_filename original 0) 1
      = Some (found, final)
    ∧ utils.path_exists d found = false
    ∧ (1 ≤ final ≤ size d + 2)%nat.
Proof.
  destruct free_candidate as (j & Hj & Hfree).
  destruct (while_exists_finds j (size d + 2 + extra) (utils.safe_filename original 0) 1)
    as (found & final & ? & ? & ?); [done|lia|].
  exists found, final. split; [done|]. split; [done|lia].
Qed.

End duplicate_loop.

(** C8.  The duplicate-avoidance loop terminates for every directory
    state: whatever the entries of the directory and the uploaded name,
    once the condition may be tested [size d + 2] times (or more) the
    loop returns a name that does not exist in the directory, and its
    body has run at most (number of existing entries + 1) times, the
    final counter being one more than the number of runs. *)
Theorem duplicate_loop_terminates (d : Dir) (original : string) :
  ∃ found final,
    (∀ extra,
       routes.while_exists (size d + 2 + extra) d original
         (utils.safe_filename original 0) 1 = Some (found, final))
    ∧ utils.path_exists d found = false
    ∧ (final - 1 ≤ size d + 1)%nat.
Proof.
  destruct (while_exists_enough d original 0) as (found & final & H0 & Hfree & Hb).
  exists found, final. split; [|split; [done|lia]].
  intros extra.
  destruct (while_exists_enough d original extra) as (f' & n' & H1 & _ & _).
  rewrite H1. rewrite Nat.add_0_r in H0.
  (* more fuel does not change the answer *)
  assert (∀ fuel k fn c r, routes.while_exists fuel d original fn c = Some r →
            routes.while_exists (fuel + k) d original fn c = Some r) as Hmono.
  { induction fuel as [|fuel IH]; intros k fn c r; simpl; [done|].
    destruct (utils.path_exists d fn); [apply IH|done]. }
  apply (Hmono _ extra) in H0. congruence.
Qed.

(* ================================================================== *)
(** * The record store *)
(* ================================================================== *)

(** Unfolds the monad so that a computation applied to a world reduces. *)
Ltac run_monad :=
  cbv [mbind M_bind mret M_ret ret raise gets modify when try_except] in *;
  simpl in *.

Lemma init_db_run w :
  database.init_db w =
  (Ok tt, match db_file w with
          | Some _ => w
          | None => log EvInitDb (set_db_file (Some (Json empty_document)) w)
          end).
Proof.
  unfold database.init_db, database.exists_db, database.json_dump. run_monad.
  by destruct (db_file w).
Qed.

Lemma load_db_run w : database.load_db w = (Ok (loaded w).1, (loaded w).2).
Proof.
  unfold database.load_db, loaded, database.open_read, database.json_load.
  run_monad. destruct (db_file w) as [[raw|data]|] eqn:Hf; simpl; try done.
  - rewrite init_db_run, Hf. done.
  - rewrite init_db_run, Hf. done.
Qed.

Lemma save_db_run data w :
  database.save_db data w =
  (Ok tt,
   match db_file w with
   | Some c => log (EvDump data) (set_db_file (Some (Json data))
                 (log EvBackup (set_db_backup (Some c) w)))
   | None => log (EvDump data) (set_db_file (Some (Json data)) w)
   end).
Proof.
  unfold database.save_db, database.exists_db, database.json_dump,
    database.open_read. run_monad.
  destruct (db_file w) eqn:Hf; simpl; by rewrite ?Hf.
Qed.

(** ** The store file, byte for byte *)

Ltac run_files :=
  cbv [mbind store_file.F_bind mret store_file.F_ret store_file.raise
       store_file.try_except store_file.exists_db store_file.read_text
       store_file.json_loads store_file.json_dump store_file.write_backup]
    in *;
  simpl in *.

(** On a store file that holds text, the three functions are those of
    [database]. *)
Lemma init_db_text w :
  store_file.init_db (files_of w)
  = ((database.init_db w).1, files_of (database.init_db w).2).
Proof.
  rewrite init_db_run. unfold store_file.init_db, files_of. run_files.
  destruct (db_file w) eqn:Hf; simpl; by rewrite ?Hf.
Qed.

Lemma load_db_text w :
  store_file.load_db (files_of w)
  = ((database.load_db w).1, files_of (database.load_db w).2).
Proof.
  rewrite load_db_run. unfold store_file.load_db, store_file.init_db, files_of,
    loaded.
  run_files. destruct (db_file w) as [[raw|data]|] eqn:Hf; simpl; by rewrite ?Hf.
Qed.

Lemma save_db_text data w :
  store_file.save_db data (files_of w)
  = ((database.save_db data w).1, files_of (database.save_db data w).2).
Proof.
  rewrite save_db_run. unfold store_file.save_db, files_of. run_files.
  destruct (db_file w) as [[raw|old]|] eqn:Hf; simpl; by rewrite ?Hf.
Qed.





Lemma loaded_clock w :
  clock (loaded w).2 = clock w ∧ ticks (loaded w).2 = ticks w
  ∧ db_backup (loaded w).2 = db_backup w
  ∧ user_storage (loaded w).2 = user_storage w
  ∧ shared_storage (loaded w).2 = shared_storage w
  ∧ entropy (loaded w).2 = entropy w ∧ drawn (loaded w).2 = drawn w.
Proof. unfold loaded. by destruct (db_file w) as [[?|?]|]. Qed.

(** After a save the file holds the saved document. *)
Lemma load_after_save data w :
  database.load_db (database.save_db data w).2
  = (Ok data, (database.save_db data w).2).
Proof.
  rewrite save_db_run, load_db_run. unfold loaded. simpl.
  by destruct (db_file w).
Qed.

(** C3 (as amended).  [create_user] fails with "Username already exists"
    when the username is present in the store; otherwise fails with
    "Maximum number of users reached" when the store holds 10 or more
    users, the constant of the function, whatever [MAX_USERS] is
    configured; otherwise it saves the document with one more record,
    whose storage-used is 0 and whose created-at and last-active are
    the two clock readings taken by the call, and returns success with
    "User created successfully".  It never raises. *)
Theorem create_user_outcomes (w : World)
    (username email_ salt_ hashed_password : string) (storage_limit_ : Z) :
  ∃ data w0,
    database.load_db w = (Ok data, w0)
    ∧ match users data !! username with
      | Some _ =>
          database.create_user username email_ salt_ hashed_password
            storage_limit_ w
          = (Ok (false, "Username already exists"), w0)
      | None =>
          if bool_decide (10 ≤ Z.of_nat (size (users data)))
          then database.create_user username email_ salt_ hashed_password
                 storage_limit_ w
               = (Ok (false, "Maximum number of users reached"), w0)
          else
            ∃ w1,
              database.create_user username email_ salt_ hashed_password
                storage_limit_ w
              = (Ok (true, "User created successfully"), w1)
              ∧ database.load_db w1
                = (Ok (mkDocument
                         (<[username :=
                              new_user email_ salt_ hashed_password storage_limit_
                                (clock w (ticks w)) (clock w (S (ticks w)))]>
                            (users data))
                         (shared_folders data)), w1)
      end.
Proof.
  exists (loaded w).1, (loaded w).2. split; [apply load_db_run|].
  unfold database.create_user. run_monad. rewrite load_db_run.
  destruct (users (loaded w).1 !! username) as [u|] eqn:Hu; simpl.
  { done. }
  case_bool_decide; [done|].
  unfold database.now_isoformat. simpl.
  destruct (loaded_clock w) as (Hc & Ht & _). rewrite Hc, Ht.
  match goal with |- context [database.save_db ?d ?w'] =>
    pose proof (load_after_save d w') as Hload;
    destruct (database.save_db d w') as [r w1] eqn:Hsave end.
  rewrite save_db_run in Hsave. injection Hsave as <- Hw1.
  exists w1. split; [done|]. exact Hload.
Qed.

(** With [MAX_USERS=1] and one registered user, the store is at the
    configured maximum, and [create_user] still accepts "bob". *)
Lemma create_user_ignores_MAX_USERS :
  ¬ capacity_claim (config.get_config max_users_1 "00") one_user_world
      "bob" "bob@example.org" "ab" "cd" 1024.
Proof.
  unfold capacity_claim. intros H.
  assert (H' := H ltac:(vm_compute; reflexivity) ltac:(vm_compute; discriminate)).
  vm_compute in H'. discriminate H'.
Qed.

(** ** Updates of one field of one user *)



(* ================================================================== *)
(** * Shared folders: who is let in *)
(* ================================================================== *)

Section operations.
Variable allowed_file : string → bool.
Variable format_file_size : Z → string.

Lemma get_shared_folder_run folder_id w :
  database.get_shared_folder folder_id w
  = (Ok (folders_of (loaded w).1 !! folder_id), (loaded w).2).
Proof. unfold database.get_shared_folder. run_monad. by rewrite load_db_run. Qed.

Lemma can_access_folder_run username folder_id w :
  database.can_access_folder username folder_id w
  = (Ok (match folders_of (loaded w).1 !! folder_id with
         | Some f => database.is_member username f
         | None => false
         end), (loaded w).2).
Proof.
  unfold database.can_access_folder. run_monad.
  rewrite get_shared_folder_run. by destruct (_ !! _).
Qed.

Lemma is_member_false username f :
  owner f ≠ username → username ∉ shared_with f →
  database.is_member username f = false.
Proof.
  intros Ho Hs. unfold database.is_member.
  by rewrite !bool_decide_eq_false_2.
Qed.

(** Whoever [can_access_folder] turns away gets the same reply from the
    four views it guards, and the views do nothing else. *)
Lemma guarded_denied op username folder_id w :
  op ≠ DeleteFolder →
  (database.can_access_folder username folder_id w).1 = Ok false →
  perform allowed_file format_file_size op username folder_id w = (Ok denied_reply, (loaded w).2).
Proof.
  intros Hop Hacc. rewrite can_access_folder_run in Hacc. simpl in Hacc.
  injection Hacc as Hacc.
  destruct op; try done; simpl;
    unfold routes.view_shared_folder, routes.upload_to_shared,
      routes.download_shared_file, routes.delete_shared_file,
      routes.access_denied, routes.flash_redirect;
    run_monad; rewrite can_access_folder_run, Hacc; done.
Qed.

Lemma delete_folder_missing username folder_id w :
  (database.get_shared_folder folder_id w).1 = Ok None →
  routes.delete_folder username folder_id w = (Ok not_found_reply, (loaded w).2).
Proof.
  rewrite get_shared_folder_run. simpl. intros [= H].
  unfold routes.delete_folder, routes.flash_redirect. run_monad.
  by rewrite get_shared_folder_run, H.
Qed.

Lemma delete_folder_not_owner username folder_id info w :
  (database.get_shared_folder folder_id w).1 = Ok (Some info) →
  owner info ≠ username →
  routes.delete_folder username folder_id w = (Ok only_owner_reply, (loaded w).2).
Proof.
  rewrite get_shared_folder_run. simpl. intros [= H] Ho.
  unfold routes.delete_folder, routes.flash_redirect. run_monad.
  rewrite get_shared_folder_run, H. simpl.
  by rewrite bool_decide_eq_true_2.
Qed.

(** C2 (as amended).  For the four operations guarded by
    [can_access_folder] (view, upload to, download from and delete a
    file of a shared folder), every username and every folder id: a user
    who is neither the owner nor in the shared-with list gets the reply
    "You do not have access to this folder.", the same reply as a
    request that names a folder id absent from the store.  The fifth
    operation, deleting the folder, answers "Only the folder owner can
    delete this folder." to such a user and "Folder not found." for an
    absent id. *)
Theorem denial_hides_existence (op : Operation) (w w' : World)
    (username folder_id folder_id' : string) (info : Folder) :
  (database.get_shared_folder folder_id w).1 = Ok (Some info) →
  owner info ≠ username → username ∉ shared_with info →
  (database.get_shared_folder folder_id' w').1 = Ok None →
  match op with
  | DeleteFolder =>
      (perform allowed_file format_file_size op username folder_id w).1 = Ok only_owner_reply
      ∧ (perform allowed_file format_file_size op username folder_id' w').1 = Ok not_found_reply
  | _ =>
      (perform allowed_file format_file_size op username folder_id w).1 = Ok denied_reply
      ∧ (perform allowed_file format_file_size op username folder_id' w').1 = Ok denied_reply
  end.
Proof.
  intros Hin Ho Hs Hout.
  assert ((database.can_access_folder username folder_id w).1 = Ok false) as H1.
  { rewrite can_access_folder_run. rewrite get_shared_folder_run in Hin.
    simpl in *. injection Hin as ->. by rewrite is_member_false. }
  assert ((database.can_access_folder username folder_id' w').1 = Ok false) as H2.
  { rewrite can_access_folder_run. rewrite get_shared_folder_run in Hout.
    simpl in *. by injection Hout as ->. }
  destruct op;
    try (split; [by rewrite (guarded_denied _ _ _ w)
                |by rewrite (guarded_denied _ _ _ w')]).
  simpl. split.
  - by rewrite (delete_folder_not_owner _ _ info).
  - by rewrite delete_folder_missing.
Qed.

End operations.

Lemma carol_is_outsider : "carol" ∉ shared_with team.
Proof. intros H. apply list_elem_of_In in H. simpl in H. intuition discriminate. Qed.

(** Deleting a folder tells carol, who has no access to the folder of
    alice, that the folder exists: the reply differs from the one for an
    id that is not in the store. *)
Lemma delete_folder_reveals_existence :
  ¬ same_denial_claim (λ _, true) (λ _, "0 B") DeleteFolder
      team_world team_world "carol" "00112233aabbccdd" "ffffffffffffffff".
Proof.
  intros H.
  specialize (H team ltac:(vm_compute; reflexivity) ltac:(discriminate)
                carol_is_outsider ltac:(vm_compute; reflexivity)).
  vm_compute in H. discriminate H.
Qed.

Lemma denial_hides_existence_witness :
  (perform (λ _, true) (λ _, "0 B") View "carol" "00112233aabbccdd" team_world).1
    = Ok denied_reply
  ∧ (perform (λ _, true) (λ _, "0 B") View "carol" "ffffffffffffffff" team_world).1
    = Ok denied_reply.
Proof.
  apply (denial_hides_existence (λ _, true) (λ _, "0 B") View team_world
           team_world "carol" "00112233aabbccdd" "ffffffffffffffff" team).
  - vm_compute; reflexivity.
  - discriminate.
  - exact carol_is_outsider.
  - vm_compute; reflexivity.
Defined.

(* ================================================================== *)
(** * Deleting a shared folder *)
(* ================================================================== *)

Section delete_folder.
Variable allowed_file : string → bool.
Variable format_file_size : Z → string.

(** After the deletion nobody is let in, whatever they ask for. *)
Lemma nobody_in_after (w' : World) (data' : Document) (folder_id : string) :
  database.load_db w' = (Ok data', w') →
  folders_of data' !! folder_id = None →
  ∀ u op,
    (database.can_access_folder u folder_id w').1 = Ok false
    ∧ perform allowed_file format_file_size op u folder_id w'
      = (Ok (match op with
             | DeleteFolder => not_found_reply
             | _ => denied_reply
             end), w').
Proof.
  intros Hload Hnone u op. rewrite load_db_run in Hload.
  injection Hload as Hd Hw.
  assert ((database.can_access_folder u folder_id w').1 = Ok false) as Hacc.
  { rewrite can_access_folder_run. simpl. by rewrite Hd, Hnone. }
  split; [done|].
  destruct op; try (rewrite guarded_denied by done; by rewrite Hw).
  simpl. rewrite delete_folder_missing; [by rewrite Hw|].
  rewrite get_shared_folder_run. simpl. by rewrite Hd, Hnone.
Qed.

(** C4.  When the owner deletes a shared folder that is in the store,
    the request succeeds; the directory tree is removed first and the
    record is saved away only after that (the disk effects end with
    [rmtree], the backup and the dump of the document without the
    folder); afterwards neither the directory nor the record exists, and
    every later request on that folder id, by any user, is denied. *)
Theorem delete_folder_removes_both (w : World) (username folder_id : string)
    (info : Folder) :
  (database.get_shared_folder folder_id w).1 = Ok (Some info) →
  owner info = username →
  ∃ w' data',
    routes.delete_folder username folder_id w = (Ok (deleted_reply info), w')
    ∧ shared_storage w' !! folder_id = None
    ∧ database.load_db w' = (Ok data', w')
    ∧ folders_of data' !! folder_id = None
    ∧ (∃ pre,
         trace w' = trace w ++ pre
                      ++ [EvRmtree SharedRoot folder_id; EvBackup; EvDump data']
         ∧ (pre = [] ∨ pre = [EvMakedirs SharedRoot folder_id]))
    ∧ ∀ u op,
        (database.can_access_folder u folder_id w').1 = Ok false
        ∧ perform allowed_file format_file_size op u folder_id w'
          = (Ok (match op with
                 | DeleteFolder => not_found_reply
                 | _ => denied_reply
                 end), w').
Proof.
  intros Hget Hown. rewrite get_shared_folder_run in Hget. simpl in Hget.
  injection Hget as Hget.
  destruct w as [dbf bak us ss clk tk ent dr tr].
  unfold loaded in Hget. simpl in Hget.
  destruct dbf as [[raw|data]|]; simpl in Hget; try done.
  unfold folders_of in Hget.
  destruct (shared_folders data) as [folders|] eqn:Hsf; simpl in Hget; [|done].
  set (data' := mkDocument (users data) (Some (delete folder_id folders))).
  assert (folders_of data' !! folder_id = None) as Hgone.
  { apply lookup_delete_eq. }
  unfold routes.delete_folder, routes.flash_redirect. run_monad.
  unfold folders_of. rewrite Hsf. simpl. rewrite Hget.
  rewrite bool_decide_eq_false_2 by (intros ?; done).
  unfold routes.get_shared_folder_path, utils.ensure_directory_exists,
    routes.rmtree, database.delete_shared_folder.
  run_monad.
  destruct (ss !! folder_id) as [dcur|] eqn:Hdir; simpl.
  - rewrite Hdir. simpl. rewrite Hsf, Hget. simpl.
    eexists _, data'. split; [reflexivity|]. simpl.
    split; [apply lookup_delete_eq|]. split; [by rewrite load_db_run|].
    split; [exact Hgone|].
    split; [exists []; split; [by rewrite <-!app_assoc|by left]|].
    apply (nobody_in_after _ data'); [by rewrite load_db_run|exact Hgone].
  - rewrite lookup_insert_eq. simpl. rewrite Hsf, Hget. simpl.
    eexists _, data'. split; [reflexivity|]. simpl.
    split; [apply lookup_delete_eq|]. split; [by rewrite load_db_run|].
    split; [exact Hgone|].
    split; [exists [EvMakedirs SharedRoot folder_id];
            split; [by rewrite <-!app_assoc|by right]|].
    apply (nobody_in_after _ data'); [by rewrite load_db_run|exact Hgone].
Qed.

End delete_folder.

Lemma delete_folder_removes_both_witness :
  ∃ w' data',
    routes.delete_folder "alice" "00112233aabbccdd" team_world
      = (Ok (deleted_reply team), w')
    ∧ shared_storage w' !! "00112233aabbccdd" = None
    ∧ folders_of data' !! "00112233aabbccdd" = None
    ∧ (database.can_access_folder "bob" "00112233aabbccdd" w').1 = Ok false.
Proof.
  destruct (delete_folder_removes_both (λ _, true) (λ _, "0 B") team_world
              "alice" "00112233aabbccdd" team)
    as (w' & data' & H1 & H2 & _ & H4 & _ & H6).
  - vm_compute; reflexivity.
  - reflexivity.
  - exists w', data'. repeat split; try done. apply (H6 "bob" View).
Defined.

(* ================================================================== *)
(** * The identifier of a shared folder *)
(* ================================================================== *)

Lemma hex_digit_is_hex n : is_hex (secrets.hex_digit n) = true.
Proof. unfold secrets.hex_digit. by repeat case_match. Qed.

Lemma hex_value_digit n : 0 ≤ n < 16 → hex_value (secrets.hex_digit n) = n.
Proof.
  intros Hn.
  assert (n = 0 ∨ n = 1 ∨ n = 2 ∨ n = 3 ∨ n = 4 ∨ n = 5 ∨ n = 6 ∨ n = 7
          ∨ n = 8 ∨ n = 9 ∨ n = 10 ∨ n = 11 ∨ n = 12 ∨ n = 13 ∨ n = 14
          ∨ n = 15) as H by lia.
  repeat (destruct H as [->|H]; [reflexivity|]). by subst.
Qed.

Lemma hexlify_length bs :
  String.length (secrets.hexlify bs) = (2 * length bs)%nat.
Proof. induction bs as [|b bs IH]; simpl; [done|]. rewrite IH. lia. Qed.

Lemma hexlify_hex bs :
  Forall (λ c, is_hex c = true) (list_ascii_of_string (secrets.hexlify bs)).
Proof.
  induction bs as [|b bs IH]; simpl; [constructor|].
  repeat constructor; auto using hex_digit_is_hex.
Qed.

(** Different byte strings have different hexadecimal forms. *)
Lemma hexlify_inj bs bs' :
  Forall (λ b, 0 ≤ b < 256) bs → Forall (λ b, 0 ≤ b < 256) bs' →
  secrets.hexlify bs = secrets.hexlify bs' → bs = bs'.
Proof.
  intros H. revert bs'. induction H as [|b bs Hb _ IH]; intros bs' H' Heq.
  - by destruct H'.
  - destruct H' as [|b' bs' Hb' H']; [done|]. simpl in Heq.
    injection Heq as Hhi Hlo Hrest.
    apply (f_equal hex_value) in Hhi, Hlo.
    rewrite !hex_value_digit in Hhi, Hlo
      by (try apply Z.mod_pos_bound; try split;
          try apply Z.div_pos; try apply Z.div_lt_upper_bound; lia).
    f_equal; [|by apply IH].
    rewrite (Z.div_mod b 16), (Z.div_mod b' 16) by lia. congruence.
Qed.

Lemma next_bytes_range nbytes w :
  length (secrets.next_bytes nbytes w) = nbytes
  ∧ Forall (λ b, 0 ≤ b < 256) (secrets.next_bytes nbytes w).
Proof.
  unfold secrets.next_bytes. split.
  - by rewrite length_map, length_seq.
  - apply Forall_fmap, Forall_forall. intros i _. simpl.
    apply Z.mod_pos_bound. lia.
Qed.

(** [token_hex(nbytes)] is a token of [8 * nbytes] bits. *)
Lemma token_hex_bits nbytes w :
  secrets.token_hex nbytes w
  = (Ok (secrets.hexlify (secrets.next_bytes nbytes w)),
     set_drawn (drawn w + nbytes) w)
  ∧ is_hex_token (8 * nbytes) (secrets.hexlify (secrets.next_bytes nbytes w)).
Proof.
  split; [reflexivity|]. split.
  - rewrite hexlify_length. destruct (next_bytes_range nbytes w) as [-> _]. lia.
  - apply hexlify_hex.
Qed.

(** C6 (as amended).  Every shared folder created via the create
    operation is identified by the hexadecimal form of 8 bytes drawn
    from the system random source: a 64-bit token of 16 hexadecimal
    digits, different for different draws.  The record is stored under
    that id and the directory of that id exists afterwards. *)
Theorem create_folder_id_64_bits (w : World) (username folder_name : string)
    (shared_with_users : list string) :
  folder_name ≠ "" → shared_with_users ≠ [] →
  ∃ folder_id w' data' info,
    folder_id = secrets.hexlify (secrets.next_bytes 8 w)
    ∧ is_hex_token 64 folder_id
    ∧ String.length folder_id = 16%nat
    ∧ (∀ bs', Forall (λ b, 0 ≤ b < 256) bs' →
              secrets.hexlify bs' = folder_id → bs' = secrets.next_bytes 8 w)
    ∧ routes.create_folder username folder_name shared_with_users w
      = (Ok (created_reply folder_name folder_id), w')
    ∧ database.load_db w' = (Ok data', w')
    ∧ folders_of data' !! folder_id = Some info
    ∧ name info = folder_name ∧ owner info = username
    ∧ shared_with info = shared_with_users
    ∧ is_Some (shared_storage w' !! folder_id).
Proof.
  intros Hname Hshared.
  destruct (token_hex_bits 8 w) as (Hrun & Htok).
  destruct (next_bytes_range 8 w) as (Hlen & Hrange).
  remember (secrets.next_bytes 8 w) as bs eqn:Hbs.
  remember (secrets.hexlify bs) as folder_id eqn:Hid.
  unfold routes.create_folder, routes.flash_redirect.
  cbv [mbind M_bind mret M_ret ret raise gets modify when try_except].
  rewrite !bool_decide_eq_false_2 by done.
  rewrite Hrun.
  unfold database.create_shared_folder, database.now_isoformat,
    routes.get_shared_folder_path, utils.ensure_directory_exists.
  cbv [mbind M_bind mret M_ret ret raise gets modify when try_except].
  rewrite load_db_run.
  clear Hrun Hbs.
  destruct w as [dbf bak us ss clk tk ent dr tr]. simpl.
  unfold loaded. simpl.
  destruct dbf as [[raw|data]|]; simpl.
  all: destruct (ss !! folder_id) as [dcur|] eqn:Hss; simpl.
  all: eexists folder_id, _, _, _.
  all: split; [reflexivity|].
  all: split; [exact Htok|]; split; [by rewrite Hid, hexlify_length, Hlen|].
  all: split; [intros bs' Hr' Heq; subst folder_id; by eapply hexlify_inj|].
  all: split; [reflexivity|]; simpl.
  all: split; [by rewrite load_db_run|].
  all: split; [apply lookup_insert_eq|].
  all: simpl; rewrite ?Hss, ?lookup_insert_eq; eauto.
Qed.

(** The folder that alice creates in the one-user store gets an id of
    16 hexadecimal digits, which is not a 128-bit token. *)
Lemma create_folder_id_not_128_bits :
  ¬ id_claim 128 one_user_world "alice" "Team" ["bob"].
Proof.
  unfold id_claim. intros H.
  destruct (routes.create_folder "alice" "Team" ["bob"] one_user_world)
    as [r w'] eqn:E.
  vm_compute in E. injection E as <- <-.
  destruct (H _ _ _ eq_refl eq_refl) as [Hlen _].
  vm_compute in Hlen. discriminate Hlen.
Qed.

Lemma create_folder_id_64_bits_witness :
  ∃ folder_id w',
    routes.create_folder "alice" "Team" ["bob"] one_user_world
      = (Ok (created_reply "Team" folder_id), w')
    ∧ is_hex_token 64 folder_id.
Proof.
  destruct (create_folder_id_64_bits one_user_world "alice" "Team" ["bob"])
    as (folder_id & w' & _ & _ & _ & Htok & _ & _ & Hrun & _);
    [discriminate|discriminate|].
  by exists folder_id, w'.
Defined.

(* ================================================================== *)
(** * The production configuration *)
(* ================================================================== *)

(** C9.  With [FLASK_ENV=production] and no [SECRET_KEY] in the
    environment, [get_config] returns the production class all the
    same: its signing key is [None], nothing is raised; secure-cookie
    transport is on and debug is off. *)
Lemma production_without_secret_key (urandom_hex : string) :
  config.get_config production_only urandom_hex
    = config.ProductionConfig production_only urandom_hex
  ∧ config.SECRET_KEY (config.get_config production_only urandom_hex) = None
  ∧ config.SESSION_COOKIE_SECURE (config.get_config production_only urandom_hex)
    = true
  ∧ config.DEBUG (config.get_config production_only urandom_hex) = false.
Proof. by repeat split. Qed.

(** In production the signing key is the one of the environment and
    never the random default of the base class, and secure cookies are
    forced, whatever else the environment holds. *)
Lemma production_config_key (environ : config.Environ) (urandom_hex : string) :
  config.SECRET_KEY (config.ProductionConfig environ urandom_hex)
    = config.env_SECRET_KEY environ
  ∧ config.SESSION_COOKIE_SECURE (config.ProductionConfig environ urandom_hex)
    = true.
Proof. by split. Qed.

(* ================================================================== *)
(** * The quota check of an upload *)
(* ================================================================== *)

Lemma ensure_directory_exists_run root entry w :
  utils.ensure_directory_exists root entry w
  = (Ok (root, entry), ensured root entry w).
Proof.
  unfold utils.ensure_directory_exists, ensured. run_monad.
  by destruct (root_dirs root w !! entry) eqn:E; simpl; rewrite ?E.
Qed.

(** The directory is there afterwards, with the entries it had. *)
Lemma ensured_lookup root entry w :
  root_dirs root (ensured root entry w) !! entry
  = Some (default ∅ (root_dirs root w !! entry)).
Proof.
  unfold ensured. destruct (root_dirs root w !! entry) eqn:E; [by rewrite E|].
  destruct root; simpl; apply lookup_insert_eq.
Qed.

Lemma ensured_db root entry w : db_file (ensured root entry w) = db_file w.
Proof.
  unfold ensured. destruct (root_dirs root w !! entry); [done|].
  by destruct root.
Qed.

Lemma unique_filename_run directory original w :
  ∃ stored,
    routes.unique_filename directory original w = (Ok stored, w)
    ∧ utils.path_exists (default ∅ (root_dirs directory.1 w !! directory.2))
        stored = false.
Proof.
  unfold routes.unique_filename.
  cbv [mbind M_bind mret M_ret ret raise gets].
  set (d := default ∅ (root_dirs directory.1 w !! directory.2)).
  destruct (while_exists_enough d original 0) as (stored & final & Hrun & Hfree & _).
  rewrite Nat.add_0_r in Hrun. rewrite Hrun. by exists stored.
Qed.

Section quota.
Variable cfg : config.Config.
Variable allowed_file : string → bool.
Variable format_file_size : Z → string.

(** C1 (as amended).  For every upload request of a logged-in user
    that carries a named file of an allowed type: a request whose body
    is longer than [MAX_CONTENT_LENGTH] is refused with the 413 error
    before anything else, whatever the quota.  Otherwise, with [used]
    the size that [get_directory_size] finds under the user's storage
    root when the request is handled (the file of the store, and with
    it the cached [storage_used], is not read) and [S] the size of the
    incoming file, the upload is refused with "Not enough storage
    space." and nothing is stored when [used + S > limit]; and when
    [used + S <= limit], equality included, the file is stored under a
    free name and the upload succeeds. *)
Theorem upload_quota (w : World) (username : string)
    (request : routes.Request) (file : routes.FileStorage) :
  routes.file_field request = Some file →
  routes.filename file ≠ "" →
  allowed_file (routes.filename file) = true →
  let d := default ∅ (user_storage w !! username) in
  let used := utils.dir_size d in
  let w0 := ensured UserRoot username w in
  utils.get_directory_size UserRoot username w0 = (Ok used, w0)
  ∧ (∀ c, utils.get_directory_size UserRoot username
            (ensured UserRoot username (set_db_file c w))
          = (Ok used, ensured UserRoot username (set_db_file c w)))
  ∧ if bool_decide (routes.body_length request
                    > config.MAX_CONTENT_LENGTH cfg)
    then
      routes.upload_file cfg allowed_file format_file_size username
        (routes.request_files cfg request) w
      = (Raise RequestEntityTooLarge, w)
    else if bool_decide (used + routes.content_length file
                         > config.STORAGE_LIMIT_PER_USER cfg)
    then
      routes.upload_file cfg allowed_file format_file_size username
        (routes.request_files cfg request) w
      = (Ok quota_reply, w0)
      ∧ user_storage w0 !! username = Some d
    else
      ∃ stored w',
        routes.upload_file cfg allowed_file format_file_size username
          (routes.request_files cfg request) w
          = (Ok (uploaded_reply format_file_size stored
                   (routes.content_length file)), w')
        ∧ d !! stored = None
        ∧ user_storage w' !! username
          = Some (<[stored := routes.content_length file]> d).
Proof.
  intros Hfile Hname Hallowed d used w0.
  assert (∀ v, user_storage v = user_storage w →
            utils.get_directory_size UserRoot username
              (ensured UserRoot username v)
            = (Ok used, ensured UserRoot username v)) as Hscan.
  { intros v Hv. unfold utils.get_directory_size. cbv [gets].
    rewrite ensured_lookup. simpl. by rewrite Hv. }
  split; [by apply Hscan|]. split; [intros c; apply Hscan; reflexivity|].
  unfold routes.upload_file, routes.request_files, routes.reading.
  case_bool_decide as Hbody; [reflexivity|].
  cbv [mbind M_bind]. rewrite Hfile.
  rewrite (bool_decide_eq_false_2 (routes.filename file = "")) by done.
  rewrite Hallowed. simpl.
  unfold routes.get_user_storage_path.
  cbv [mbind M_bind].
  rewrite ensure_directory_exists_run. simpl.
  pose proof (ensured_lookup UserRoot username w) as He. simpl in He.
  rewrite He. simpl. fold d used w0.
  case_bool_decide as Hq.
  - done.
  - destruct (unique_filename_run (UserRoot, username) (routes.filename file) w0)
      as (stored & Hrun & Hfree).
    rewrite Hrun. simpl in Hfree. fold w0 in He. rewrite He in Hfree.
    simpl in Hfree. fold d in Hfree.
    exists stored. eexists. split; [reflexivity|]. split.
    + unfold utils.path_exists in Hfree.
      repeat apply orb_false_elim in Hfree as [Hfree ?].
      match goal with H : bool_decide (is_Some _) = false |- _ =>
        apply bool_decide_eq_false in H; by apply eq_None_not_Some in H end.
    + simpl. by rewrite lookup_insert_eq, He.
Qed.

End quota.

(** With the default configuration (10 GiB for each user, 2 GiB for a
    request) and nothing stored, a file of 3 GiB is within the quota,
    and the upload is refused all the same. *)
Lemma upload_within_quota_refused :
  ¬ quota_claim default_config (λ _, true) (λ _, "3.0 GB") (bare_world None)
      "alice" three_gib_request (routes.mkFileStorage "big.iso" 3221225472).
Proof.
  intros H. destruct H as (stored & w' & H).
  - reflexivity.
  - vm_compute. discriminate.
  - vm_compute. discriminate.
  - vm_compute in H. discriminate H.
Qed.

Lemma upload_quota_witness :
  ∃ stored w',
    routes.upload_file one_gib (λ _, true) (λ _, "10 B") "alice"
      (routes.request_files one_gib
         (routes.mkRequest 400 (Some (routes.mkFileStorage "a.bin" 10))))
      nearly_full_world
    = (Ok (uploaded_reply (λ _, "10 B") stored 10), w').
Proof.
  destruct (upload_quota one_gib (λ _, true) (λ _, "10 B") nearly_full_world
              "alice"
              (routes.mkRequest 400 (Some (routes.mkFileStorage "a.bin" 10)))
              (routes.mkFileStorage "a.bin" 10))
    as (_ & _ & H); [reflexivity|discriminate|reflexivity|].
  cbv zeta in H.
  rewrite (bool_decide_eq_false_2 (routes.body_length _ > _)) in H
    by (vm_compute; discriminate).
  rewrite bool_decide_eq_false_2 in H by (vm_compute; discriminate).
  destruct H as (stored & w' & H & _). by exists stored, w'.
Defined.

(** The same upload with one byte more is refused, and the upload that
    fits is stored as [a_1.bin], the name [a.bin] being taken. *)
Example upload_one_byte_too_many :
  (routes.upload_file one_gib (λ _, true) (λ _, "11 B") "alice"
     (routes.request_files one_gib
        (routes.mkRequest 400 (Some (routes.mkFileStorage "a.bin" 11))))
     nearly_full_world).1
  = Ok quota_reply.
Proof. vm_compute. reflexivity. Qed.

Example upload_exactly_at_limit :
  (routes.upload_file one_gib (λ _, true) (λ _, "10 B") "alice"
     (routes.request_files one_gib
        (routes.mkRequest 400 (Some (routes.mkFileStorage "a.bin" 10))))
     nearly_full_world).1
  = Ok (uploaded_reply (λ _, "10 B") "a_1.bin" 10).
Proof. vm_compute. reflexivity. Qed.

Example safe_filename_traversal :
  utils.safe_filename "../../etc/passwd" 0 = "passwd"
  ∧ utils.safe_filename "..\..\boot.ini" 2 = "boot_2.ini"
  ∧ utils.safe_filename ".." 0 = ""
  ∧ utils.safe_filename "/abs/report.tar.gz" 1 = "report.tar_1.gz".
Proof. vm_compute. done. Qed.


(* ================================================================== *)
(** * More of the record store *)
(* ================================================================== *)

Lemma save_db_saved data w : database.save_db data w = (Ok tt, saved data w).
Proof. rewrite save_db_run. unfold saved. by destruct (db_file w). Qed.

Lemma saved_fields data w :
  db_file (saved data w) = Some (Json data)
  ∧ db_backup (saved data w)
    = match db_file w with Some c => Some c | None => db_backup w end
  ∧ user_storage (saved data w) = user_storage w
  ∧ shared_storage (saved data w) = shared_storage w
  ∧ clock (saved data w) = clock w ∧ ticks (saved data w) = ticks w
  ∧ entropy (saved data w) = entropy w ∧ drawn (saved data w) = drawn w.
Proof. unfold saved. by destruct (db_file w). Qed.

Lemma loaded_saved data w : loaded (saved data w) = (data, saved data w).
Proof.
  unfold loaded. destruct (saved_fields data w) as [-> _]. done.
Qed.

Lemma loaded_json data w :
  db_file w = Some (Json data) → loaded w = (data, w).
Proof. intros H. unfold loaded. by rewrite H. Qed.

(** After a load the file holds the loaded document. *)
Lemma loaded_loaded w : loaded (loaded w).2 = ((loaded w).1, (loaded w).2).
Proof.
  unfold loaded. destruct (db_file w) as [[raw|data]|] eqn:Hf; simpl;
    by rewrite ?Hf.
Qed.

Lemma get_user_run username w :
  database.get_user username w
  = (Ok (users (loaded w).1 !! username), (loaded w).2).
Proof. unfold database.get_user. run_monad. by rewrite load_db_run. Qed.

Lemma get_all_users_run w :
  database.get_all_users w = (Ok (users (loaded w).1), (loaded w).2).
Proof. unfold database.get_all_users. run_monad. by rewrite load_db_run. Qed.

(** X1.  Whatever the store file holds, [save_db] does not raise and
    a [load_db] after it returns the saved document.  The content that
    the file had before becomes the backup when it can be read as text,
    parsable or not; when it cannot be decoded the failed copy is
    passed over in silence and the backup is left as it was, as it is
    when there was no file.  In a world, whose store file holds text,
    the storage roots are not touched. *)
Theorem save_then_load (data : Document) (f : store_file.Files) :
  (∃ f',
     store_file.save_db data f = (Ok tt, f')
     ∧ store_file.load_db f' = (Ok data, f')
     ∧ store_file.backup f'
       = match store_file.db f with
         | None | Some (store_file.Undecodable _) => store_file.backup f
         | Some previous => Some previous
         end)
  ∧ ∀ w, ∃ w',
      database.save_db data w = (Ok tt, w')
      ∧ store_file.save_db data (files_of w) = (Ok tt, files_of w')
      ∧ database.load_db w' = (Ok data, w')
      ∧ user_storage w' = user_storage w
      ∧ shared_storage w' = shared_storage w.
Proof.
  split.
  - unfold store_file.save_db, store_file.load_db. run_files.
    destruct f as [[[[raw|old]|raw|raw]|] bak]; simpl;
      eexists; (split; [reflexivity|]); by split.
  - intros w. exists (saved data w).
    pose proof (save_db_text data w) as Htext.
    rewrite save_db_saved in *. split; [done|]. split; [exact Htext|].
    split; [by rewrite load_db_run, loaded_saved|].
    destruct (saved_fields data w) as (_ & _ & ? & ? & _). done.
Qed.

(** X2.  [init_db] writes the empty document only where there is no
    file: a file that exists is left as it is, whatever its bytes, the
    backup is never touched, and running [init_db] twice is running it
    once. *)
Theorem init_db_keeps_existing_file (f : store_file.Files) :
  ∃ f',
    store_file.init_db f = (Ok tt, f')
    ∧ store_file.init_db f' = (Ok tt, f')
    ∧ store_file.backup f' = store_file.backup f
    ∧ match store_file.db f with
      | None => store_file.db f' = Some (store_file.Text (Json empty_document))
      | Some _ => f' = f
      end.
Proof.
  unfold store_file.init_db. run_files.
  destruct f as [[content|] bak]; simpl; eexists; by repeat split.
Qed.

(** What [create_user] does, in one equation. *)
Lemma create_user_run username email_ salt_ hashed_password storage_limit_ w :
  database.create_user username email_ salt_ hashed_password storage_limit_ w
  = if bool_decide (is_Some (users (loaded w).1 !! username))
    then (Ok (false, "Username already exists"), (loaded w).2)
    else if bool_decide (10 ≤ Z.of_nat (size (users (loaded w).1)))
    then (Ok (false, "Maximum number of users reached"), (loaded w).2)
    else (Ok (true, "User created successfully"),
          saved (mkDocument
                   (<[username :=
                        new_user email_ salt_ hashed_password storage_limit_
                          (clock w (ticks w)) (clock w (S (ticks w)))]>
                      (users (loaded w).1))
                   (shared_folders (loaded w).1))
            (set_ticks (S (S (ticks w))) (loaded w).2)).
Proof.
  unfold database.create_user. run_monad. rewrite load_db_run.
  case_bool_decide; [done|]. case_bool_decide; [done|].
  unfold database.now_isoformat. simpl.
  destruct (loaded_clock w) as (Hc & Ht & _). rewrite Hc, Ht.
  rewrite save_db_saved. reflexivity.
Qed.

(** X3.  A successful [create_user] can be read back: for a username
    that [get_user] does not find, in a store of fewer than 10 users,
    [create_user] succeeds; afterwards [get_user] returns the new record
    (storage-used 0, the given email, salt, hash and limit), every other
    username reads as before, the users are one more, and every shared
    folder reads as before. *)
Theorem create_user_then_get_user (w : World)
    (username email_ salt_ hashed_password : string) (storage_limit_ : Z)
    (before : gmap string User) :
  (database.get_user username w).1 = Ok None →
  (database.get_all_users w).1 = Ok before →
  (size before < 10)%nat →
  ∃ w' record,
    database.create_user username email_ salt_ hashed_password storage_limit_ w
      = (Ok (true, "User created successfully"), w')
    ∧ database.get_user username w' = (Ok (Some record), w')
    ∧ record = new_user email_ salt_ hashed_password storage_limit_
                 (clock w (ticks w)) (clock w (S (ticks w)))
    ∧ database.get_all_users w' = (Ok (<[username := record]> before), w')
    ∧ size (<[username := record]> before) = S (size before)
    ∧ (∀ other, other ≠ username →
         (database.get_user other w').1 = (database.get_user other w).1)
    ∧ (∀ folder_id,
         (database.get_shared_folder folder_id w').1
         = (database.get_shared_folder folder_id w).1).
Proof.
  rewrite get_user_run, get_all_users_run. simpl. intros [= Hnone] [= Hall] Hsize.
  rewrite create_user_run, Hnone, Hall.
  rewrite bool_decide_eq_false_2 by (intros [? ?]; done).
  rewrite bool_decide_eq_false_2 by lia.
  eexists _, _. split; [reflexivity|].
  rewrite get_user_run, get_all_users_run, loaded_saved. simpl.
  split; [by rewrite lookup_insert_eq|]. split; [done|]. split; [done|].
  split; [apply map_size_insert_None; by rewrite <-Hall|].
  split.
  - intros other Hne. rewrite !get_user_run, loaded_saved. simpl.
    by rewrite lookup_insert_ne, ?Hall.
  - intros folder_id. rewrite !get_shared_folder_run, loaded_saved. done.
Qed.

Lemma create_user_then_get_user_witness :
  ∃ w' record,
    database.create_user "bob" "bob@example.org" "ab" "cd" 2048 one_user_world
      = (Ok (true, "User created successfully"), w')
    ∧ database.get_user "bob" w' = (Ok (Some record), w')
    ∧ storage_used record = 0 ∧ storage_limit record = 2048.
Proof.
  destruct (create_user_then_get_user one_user_world "bob" "bob@example.org"
              "ab" "cd" 2048 {[ "alice" := alice ]})
    as (w' & record & H1 & H2 & -> & _).
  - vm_compute; reflexivity.
  - vm_compute; reflexivity.
  - vm_compute; lia.
  - eexists w', _. split; [exact H1|]. split; [exact H2|]. by split.
Defined.

(** X4.  No username is accepted twice: once [create_user] has
    succeeded for a username, a second call for it, with whatever
    email, salt, hash and limit, answers "Username already exists",
    saves nothing, and the stored record is still the first one. *)
Theorem create_user_twice (w : World)
    (username email_ salt_ hashed_password : string) (storage_limit_ : Z)
    (email2 salt2 hashed2 : string) (limit2 : Z) (w' : World) :
  database.create_user username email_ salt_ hashed_password storage_limit_ w
    = (Ok (true, "User created successfully"), w') →
  database.create_user username email2 salt2 hashed2 limit2 w'
    = (Ok (false, "Username already exists"), w')
  ∧ (database.get_user username w').1
    = Ok (Some (new_user email_ salt_ hashed_password storage_limit_
                  (clock w (ticks w)) (clock w (S (ticks w))))).
Proof.
  rewrite create_user_run. repeat case_bool_decide; try done.
  intros [= <-]. rewrite create_user_run, get_user_run, loaded_saved. simpl.
  rewrite lookup_insert_eq. by rewrite bool_decide_eq_true_2 by eauto.
Qed.

Lemma create_user_twice_witness :
  ∃ w',
    database.create_user "bob" "other@example.org" "00" "11" 1 w'
      = (Ok (false, "Username already exists"), w').
Proof.
  eexists.
  apply (create_user_twice one_user_world "bob" "bob@example.org" "ab" "cd"
           2048 "other@example.org" "00" "11" 1).
  vm_compute. reflexivity.
Defined.

(** X5.  [create_user] only ever adds: whatever its arguments and its
    outcome, every user that was in the store is still there with the
    same record, and the number of users afterwards is at most the
    larger of 10 and the number before; a store of at most 10 users
    never grows beyond 10. *)
Theorem create_user_bounded (w : World)
    (username email_ salt_ hashed_password : string) (storage_limit_ : Z) :
  ∃ before after,
    (database.get_all_users w).1 = Ok before
    ∧ (database.get_all_users
         (database.create_user username email_ salt_ hashed_password
            storage_limit_ w).2).1 = Ok after
    ∧ before ⊆ after
    ∧ (size after ≤ size before `max` 10)%nat.
Proof.
  exists (users (loaded w).1). rewrite get_all_users_run.
  rewrite create_user_run.
  repeat case_bool_decide; simpl;
    rewrite get_all_users_run; rewrite ?loaded_loaded, ?loaded_saved; simpl;
    eexists; (split; [reflexivity|]); (split; [reflexivity|]).
  - split; [done|lia].
  - split; [done|lia].
  - assert (users (loaded w).1 !! username = None) as Hnone.
    { by apply eq_None_not_Some. }
    split; [by apply insert_subseteq|].
    rewrite map_size_insert_None by done. lia.
Qed.

(** X6.  On a store file whose text the parser rejects with
    [JSONDecodeError], [create_user] does not fail: it starts from the
    empty document, so the store afterwards holds the new user and
    nothing else, and the rejected text survives only as the backup. *)
Theorem create_user_on_unparsable_store (w : World) (raw : string)
    (username email_ salt_ hashed_password : string) (storage_limit_ : Z) :
  db_file w = Some (Garbage raw) →
  ∃ w' record,
    database.create_user username email_ salt_ hashed_password storage_limit_ w
      = (Ok (true, "User created successfully"), w')
    ∧ db_file w' = Some (Json (mkDocument {[ username := record ]} (Some ∅)))
    ∧ email record = email_ ∧ storage_used record = 0
    ∧ db_backup w' = Some (Garbage raw).
Proof.
  intros Hf. rewrite create_user_run.
  assert (loaded w = (empty_document, w)) as -> by (unfold loaded; by rewrite Hf).
  simpl. rewrite lookup_empty.
  rewrite bool_decide_eq_false_2 by (intros [? ?]; done).
  rewrite bool_decide_eq_false_2 by (rewrite map_size_empty; lia).
  eexists _, _. split; [reflexivity|].
  destruct (saved_fields
              (mkDocument
                 (<[username := new_user email_ salt_ hashed_password
                      storage_limit_ (clock w (ticks w)) (clock w (S (ticks w)))]> ∅)
                 (Some ∅))
              (set_ticks (S (S (ticks w))) w)) as (-> & -> & _).
  simpl. rewrite Hf. by rewrite insert_empty.
Qed.

Lemma create_user_on_unparsable_store_witness :
  ∃ w' record,
    database.create_user "bob" "bob@example.org" "ab" "cd" 2048
      (bare_world (Some (Garbage "{users:")))
      = (Ok (true, "User created successfully"), w')
    ∧ db_file w' = Some (Json (mkDocument {[ "bob" := record ]} (Some ∅)))
    ∧ db_backup w' = Some (Garbage "{users:").
Proof.
  destruct (create_user_on_unparsable_store
              (bare_world (Some (Garbage "{users:"))) "{users:" "bob"
              "bob@example.org" "ab" "cd" 2048)
    as (w' & record & H1 & H2 & _ & _ & H3); [reflexivity|].
  by exists w', record.
Defined.

(** ** Shared-folder records *)

Lemma create_shared_folder_run folder_id folder_name owner_ shared_with_ w :
  database.create_shared_folder folder_id folder_name owner_ shared_with_ w
  = (Ok tt,
     saved (mkDocument (users (loaded w).1)
              (Some (<[folder_id :=
                         new_folder folder_name owner_ shared_with_
                           (clock w (ticks w))]>
                       (folders_of (loaded w).1))))
       (set_ticks (S (ticks w)) (loaded w).2)).
Proof.
  unfold database.create_shared_folder, database.now_isoformat. run_monad.
  rewrite load_db_run.
  destruct (loaded_clock w) as (Hc & Ht & _). rewrite Hc, Ht.
  by rewrite save_db_saved.
Qed.

Lemma delete_shared_folder_run folder_id w :
  database.delete_shared_folder folder_id w
  = if bool_decide (is_Some (folders_of (loaded w).1 !! folder_id))
    then (Ok true,
          saved (mkDocument (users (loaded w).1)
                   (Some (delete folder_id (folders_of (loaded w).1))))
            (loaded w).2)
    else (Ok false, (loaded w).2).
Proof.
  unfold database.delete_shared_folder. run_monad. rewrite load_db_run.
  unfold folders_of. destruct (shared_folders (loaded w).1) as [folders|]; simpl.
  - case_bool_decide; [|done]. by rewrite save_db_saved.
  - rewrite lookup_empty. by rewrite bool_decide_eq_false_2 by (intros [? ?]; done).
Qed.

(** X7.  [create_shared_folder] stores the record under the given id
    whether or not the id was in use (an existing record of that id is
    replaced, no error): afterwards [get_shared_folder] returns the new
    record, [can_access_folder] lets in exactly the owner and the listed
    members, and every other folder and every user read as before. *)
Theorem create_shared_folder_then_get (w : World)
    (folder_id folder_name owner_ : string) (shared_with_ : list string) :
  ∃ w',
    database.create_shared_folder folder_id folder_name owner_ shared_with_ w
      = (Ok tt, w')
    ∧ database.get_shared_folder folder_id w'
      = (Ok (Some (new_folder folder_name owner_ shared_with_
                     (clock w (ticks w)))), w')
    ∧ (∀ username,
         database.can_access_folder username folder_id w'
         = (Ok (bool_decide (owner_ = username ∨ username ∈ shared_with_)), w'))
    ∧ (∀ other, other ≠ folder_id →
         (database.get_shared_folder other w').1
         = (database.get_shared_folder other w).1)
    ∧ (∀ username,
         (database.get_user username w').1 = (database.get_user username w).1).
Proof.
  rewrite create_shared_folder_run. eexists. split; [reflexivity|].
  repeat split.
  - rewrite get_shared_folder_run, loaded_saved. simpl.
    unfold folders_of. simpl. by rewrite lookup_insert_eq.
  - intros username. rewrite can_access_folder_run, loaded_saved. simpl.
    unfold folders_of at 1. simpl. rewrite lookup_insert_eq.
    f_equal. f_equal. unfold database.is_member. simpl.
    repeat case_bool_decide; simpl; try done; tauto.
  - intros other Hne. rewrite !get_shared_folder_run, loaded_saved. simpl.
    unfold folders_of at 1. simpl. by rewrite lookup_insert_ne.
  - intros username. by rewrite !get_user_run, loaded_saved.
Qed.

(** X8.  [delete_shared_folder] returns [True] exactly when the id was
    in the store.  Afterwards the id is absent, a second delete returns
    [False] and changes nothing, and every other folder and every user
    read as before; when the id was absent nothing is saved (the backup
    is as it was). *)
Theorem delete_shared_folder_outcomes (w : World) (folder_id : string) :
  ∃ before w',
    (database.get_shared_folder folder_id w).1 = Ok before
    ∧ database.delete_shared_folder folder_id w
      = (Ok (bool_decide (is_Some before)), w')
    ∧ database.get_shared_folder folder_id w' = (Ok None, w')
    ∧ database.delete_shared_folder folder_id w' = (Ok false, w')
    ∧ (∀ other, other ≠ folder_id →
         (database.get_shared_folder other w').1
         = (database.get_shared_folder other w).1)
    ∧ (∀ username,
         (database.get_user username w').1 = (database.get_user username w).1)
    ∧ match before with
      | None => db_backup w' = db_backup w
      | Some _ => db_backup w' = db_file (database.load_db w).2
      end.
Proof.
  exists (folders_of (loaded w).1 !! folder_id).
  rewrite get_shared_folder_run, delete_shared_folder_run, load_db_run. simpl.
  destruct (folders_of (loaded w).1 !! folder_id) as [info|] eqn:Hf.
  - rewrite bool_decide_eq_true_2 by eauto.
    eexists. split; [done|]. split; [reflexivity|].
    assert (∀ x, folders_of (mkDocument (users (loaded w).1)
                   (Some (delete folder_id (folders_of (loaded w).1)))) !! x
                 = delete folder_id (folders_of (loaded w).1) !! x) as Hfo by done.
    repeat split.
    + rewrite get_shared_folder_run, loaded_saved. simpl.
      by rewrite Hfo, lookup_delete_eq.
    + rewrite delete_shared_folder_run, loaded_saved. simpl.
      rewrite Hfo, lookup_delete_eq.
      by rewrite bool_decide_eq_false_2 by (intros [? ?]; done).
    + intros other Hne. rewrite !get_shared_folder_run, loaded_saved. simpl.
      by rewrite Hfo, lookup_delete_ne.
    + intros username. by rewrite !get_user_run, loaded_saved.
    + destruct (saved_fields
                  (mkDocument (users (loaded w).1)
                     (Some (delete folder_id (folders_of (loaded w).1))))
                  (loaded w).2) as (_ & -> & _).
      unfold folders_of, loaded in *.
      destruct (db_file w) as [[raw|data]|] eqn:Hdb; simpl in *;
        by rewrite ?Hdb in *.
  - rewrite bool_decide_eq_false_2 by (intros [? ?]; done).
    eexists. split; [done|]. split; [reflexivity|].
    repeat split.
    + rewrite get_shared_folder_run, loaded_loaded. simpl. by rewrite Hf.
    + rewrite delete_shared_folder_run, loaded_loaded. simpl. rewrite Hf.
      by rewrite bool_decide_eq_false_2 by (intros [? ?]; done).
    + intros other _. by rewrite !get_shared_folder_run, loaded_loaded.
    + intros username. by rewrite !get_user_run, loaded_loaded.
    + apply loaded_clock.
Qed.

(** X9.  The listing agrees with the access check: a folder id is in
    what [get_user_shared_folders] returns for a user exactly when
    [can_access_folder] lets that user in, and its entry carries the
    name, owner and members of the stored record, with [is_owner] set
    exactly for the owner. *)
Theorem listing_agrees_with_access (w : World) (username : string) :
  ∃ folders w',
    listing.get_user_shared_folders username w = (Ok folders, w')
    ∧ ∀ folder_id,
        (database.can_access_folder username folder_id w).1
        = Ok (bool_decide (is_Some (folders !! folder_id)))
        ∧ match folders !! folder_id with
          | Some entry =>
              ∃ info,
                (database.get_shared_folder folder_id w).1 = Ok (Some info)
                ∧ entry = entry_of username info
                ∧ listing.entry_is_owner entry
                  = bool_decide (owner info = username)
          | None => True
          end.
Proof.
  unfold listing.get_user_shared_folders. run_monad. rewrite load_db_run.
  eexists _, _. split; [reflexivity|]. intros folder_id.
  rewrite can_access_folder_run, get_shared_folder_run. simpl.
  rewrite lookup_fmap.
  destruct (folders_of (loaded w).1 !! folder_id) as [info|] eqn:Hf.
  - destruct (database.is_member username info) eqn:Hm.
    + erewrite (map_lookup_filter_Some_2 _ _ folder_id info) by done. simpl.
      split; [done|]. by exists info.
    + rewrite map_lookup_filter_None_2; simpl; [done|].
      right. intros x Hx. simpl. rewrite Hf in Hx. injection Hx as <-.
      by rewrite Hm.
  - by rewrite map_lookup_filter_None_2 by (by left).
Qed.

(* ================================================================== *)
(** * Accounts *)
(* ================================================================== *)

(** A user or a folder that is found comes from a file that parses. *)
Lemma get_user_some_json username user w :
  (database.get_user username w).1 = Ok (Some user) →
  ∃ data, db_file w = Some (Json data) ∧ users data !! username = Some user.
Proof.
  rewrite get_user_run. simpl. unfold loaded.
  destruct (db_file w) as [[raw|data]|]; simpl; intros [= H]; try done.
  by exists data.
Qed.

Lemma update_user_storage_run username n w :
  database.update_user_storage username n w
  = (Ok tt,
     match users (loaded w).1 !! username with
     | Some u =>
         saved (mkDocument
                  (<[username := database.set_storage_used n u]> (users (loaded w).1))
                  (shared_folders (loaded w).1)) (loaded w).2
     | None => (loaded w).2
     end).
Proof.
  unfold database.update_user_storage. run_monad. rewrite load_db_run.
  destruct (users (loaded w).1 !! username); [|done]. by rewrite save_db_saved.
Qed.

Lemma update_user_activity_run username w :
  database.update_user_activity username w
  = (Ok tt,
     match users (loaded w).1 !! username with
     | Some u =>
         saved (mkDocument
                  (<[username := database.set_last_active (clock w (ticks w)) u]>
                     (users (loaded w).1))
                  (shared_folders (loaded w).1))
           (set_ticks (S (ticks w)) (loaded w).2)
     | None => (loaded w).2
     end).
Proof.
  unfold database.update_user_activity, database.now_isoformat. run_monad.
  rewrite load_db_run.
  destruct (users (loaded w).1 !! username); [|done]. simpl.
  destruct (loaded_clock w) as (Hc & Ht & _). rewrite Hc, Ht.
  by rewrite save_db_saved.
Qed.

Section accounts.
Variable cfg : config.Config.
Variable hash_password : string → M (string * string).
Variable verify_password : string → string → string → bool.
Variable format_file_size : Z → string.
Variable registration_message : Z → string.

(** X10.  A failed login does not tell why: for a session that is not
    logged in and a form with both fields filled, a username that is not
    in the store and a username that is there with a password that
    [verify_password] rejects get the same reply, "Invalid username or
    password." on the login page; the session stays as it was and
    nothing is saved in either case. *)
Theorem login_failure_is_generic (w w' : World) (session : pages.Session)
    (form form' : pages.LoginForm) (user : User) :
  pages.session_username session = None →
  pages.login_username form ≠ "" → pages.login_password form ≠ "" →
  pages.login_username form' ≠ "" → pages.login_password form' ≠ "" →
  (database.get_user (pages.login_username form) w).1 = Ok None →
  (database.get_user (pages.login_username form') w').1 = Ok (Some user) →
  verify_password (salt user) (password user) (pages.login_password form')
    = false →
  pages.login verify_password session (Some form) w
    = (Ok (pages.invalid_login, session), (database.load_db w).2)
  ∧ pages.login verify_password session (Some form') w'
    = (Ok (pages.invalid_login, session), w').
Proof.
  intros Hs Hu Hp Hu' Hp' Hnone Hsome Hv.
  apply get_user_some_json in Hsome as (data & Hdb & Hsome).
  rewrite get_user_run in Hnone. simpl in Hnone. injection Hnone as Hnone.
  unfold pages.login. rewrite Hs.
  rewrite !(bool_decide_eq_false_2 (_ = "")) by done. simpl.
  cbv [mbind M_bind mret M_ret ret].
  rewrite !get_user_run, load_db_run, Hnone. simpl.
  rewrite (loaded_json data w') by done. simpl. by rewrite Hsome, Hv.
Qed.

(** X11.  A successful login: for a session that is not logged in, a
    user of the store and a password that [verify_password] accepts,
    the session afterwards is permanent and carries the username and the
    first clock reading as login time; the reply redirects to the
    storage page; and the stored record of the user has the second
    clock reading as [last_active] and is otherwise as before.  Other
    users are not changed. *)
Theorem login_success (w : World) (session : pages.Session)
    (form : pages.LoginForm) (user : User) :
  pages.session_username session = None →
  pages.login_username form ≠ "" → pages.login_password form ≠ "" →
  (database.get_user (pages.login_username form) w).1 = Ok (Some user) →
  verify_password (salt user) (password user) (pages.login_password form)
    = true →
  ∃ w',
    pages.login verify_password session (Some form) w
      = (Ok (pages.mkReply
               [("Welcome back, " +:+ pages.login_username form +:+ "!",
                 "success")]
               (pages.Redirect "storage"),
             pages.mkSession (Some (pages.login_username form))
               (Some (clock w (ticks w))) true), w')
    ∧ database.get_user (pages.login_username form) w'
      = (Ok (Some (database.set_last_active (clock w (S (ticks w))) user)), w')
    ∧ same_except_last_active user
        (database.set_last_active (clock w (S (ticks w))) user)
    ∧ (∀ other, other ≠ pages.login_username form →
         (database.get_user other w').1 = (database.get_user other w).1).
Proof.
  intros Hs Hu Hp Hsome Hv.
  apply get_user_some_json in Hsome as (data & Hdb & Hsome).
  unfold pages.login. rewrite Hs.
  rewrite !(bool_decide_eq_false_2 (_ = "")) by done. simpl.
  cbv [mbind M_bind mret M_ret ret].
  rewrite get_user_run, (loaded_json data w) by done. simpl.
  rewrite Hsome, Hv. unfold database.now_isoformat.
  rewrite update_user_activity_run.
  assert (loaded (set_ticks (S (ticks w)) w) = (data, set_ticks (S (ticks w)) w))
    as -> by (apply loaded_json; by destruct w).
  simpl. rewrite Hsome.
  eexists. split; [reflexivity|].
  split; [by rewrite get_user_run, loaded_saved; simpl; rewrite lookup_insert_eq|].
  split; [by repeat split|].
  intros other Hne. rewrite !get_user_run, loaded_saved. simpl.
  rewrite lookup_insert_ne by done. by rewrite (loaded_json data w).
Qed.

End accounts.

Lemma ensured_fields root entry w :
  db_file (ensured root entry w) = db_file w
  ∧ db_backup (ensured root entry w) = db_backup w
  ∧ clock (ensured root entry w) = clock w
  ∧ ticks (ensured root entry w) = ticks w.
Proof.
  unfold ensured. destruct (root_dirs root w !! entry); [done|].
  by destruct root.
Qed.

(** Creating a directory does not change what the store holds. *)
Lemma loaded_ensured root entry w :
  (loaded (ensured root entry w)).1 = (loaded w).1.
Proof.
  unfold loaded. destruct (ensured_fields root entry w) as (-> & _).
  by destruct (db_file w) as [[raw|data]|].
Qed.

Lemma ensured_user_lookup username w :
  user_storage (ensured UserRoot username w) !! username
  = Some (default ∅ (user_storage w !! username)).
Proof. apply (ensured_lookup UserRoot). Qed.

Section account_pages.
Variable cfg : config.Config.
Variable hash_password : string → M (string * string).
Variable format_file_size : Z → string.
Variable registration_message : Z → string.

(** X12.  A registration that passes the checks of the form (username
    of 3 characters or more, email given, password of 8 characters or
    more and confirmed; characters, not bytes), for a username that is not in the store and a
    store of fewer than 10 users: the reply redirects to the login page;
    afterwards [get_user] returns a record with the email of the form,
    the salt and hash that [hash_password] returned, storage-used 0
    and the configured [STORAGE_LIMIT_PER_USER] as limit; and the
    storage directory of the user exists. *)
Theorem register_creates_account (w w1 : World) (form : pages.RegisterForm)
    (hashed : string * string) (before : gmap string User) :
  (3 ≤ pages.len (pages.form_username form))%nat →
  pages.form_email form ≠ "" →
  (8 ≤ pages.len (pages.form_password form))%nat →
  pages.form_confirm_password form = pages.form_password form →
  hash_password (pages.form_password form) w = (Ok hashed, w1) →
  (database.get_user (pages.form_username form) w1).1 = Ok None →
  (database.get_all_users w1).1 = Ok before →
  (size before < 10)%nat →
  ∃ w' record,
    pages.register cfg hash_password registration_message (Some form) w
      = (Ok (pages.mkReply
               [(registration_message (config.STORAGE_LIMIT_PER_USER cfg),
                 "success")]
               (pages.Redirect "login")), w')
    ∧ (database.get_user (pages.form_username form) w').1 = Ok (Some record)
    ∧ email record = pages.form_email form
    ∧ salt record = hashed.1 ∧ password record = hashed.2
    ∧ storage_used record = 0
    ∧ storage_limit record = config.STORAGE_LIMIT_PER_USER cfg
    ∧ is_Some (user_storage w' !! pages.form_username form).
Proof.
  intros Hu He Hp Hc Hhash Hnone Hall Hsize.
  rewrite get_user_run in Hnone. rewrite get_all_users_run in Hall.
  simpl in Hnone, Hall. injection Hnone as Hnone. injection Hall as Hall.
  assert (pages.form_username form ≠ "") as Hu0.
  { intros E. rewrite E in Hu. vm_compute in Hu. lia. }
  assert (pages.form_password form ≠ "") as Hp0.
  { intros E. rewrite E in Hp. vm_compute in Hp. lia. }
  unfold pages.register.
  rewrite !(bool_decide_eq_false_2 (_ = "")) by done. simpl.
  rewrite !(bool_decide_eq_false_2 (_ < _)%nat) by lia.
  rewrite (bool_decide_eq_false_2 (_ ≠ _)) by (intros H; by apply H).
  cbv [mbind M_bind mret M_ret ret].
  rewrite Hhash, create_user_run, Hnone, Hall.
  rewrite bool_decide_eq_false_2 by (intros [? ?]; done).
  rewrite bool_decide_eq_false_2 by lia.
  simpl. unfold routes.get_user_storage_path.
  rewrite ensure_directory_exists_run.
  eexists _, _. split; [reflexivity|].
  rewrite get_user_run. simpl. rewrite loaded_ensured, loaded_saved. simpl.
  rewrite lookup_insert_eq. split; [reflexivity|].
  repeat split; try done.
  rewrite ensured_user_lookup. eauto.
Qed.

(** X13.  The storage page refreshes the cached usage: after
    [GET /storage] the directory of the user exists with the files it
    had, and when the user is in the store the stored [storage_used] is
    the size of that directory as scanned during the request, the rest
    of the record being as before; when the user is not in the store
    the page is rendered all the same and nothing is saved. *)
Theorem storage_refreshes_usage (w : World) (username : string) :
  let d := default ∅ (user_storage w !! username) in
  ∃ context w',
    pages.storage cfg format_file_size username w
      = (Ok (pages.mkReply [] (pages.Render "storage.html" context)), w')
    ∧ In ("storage_used_bytes", pages.VInt (utils.dir_size d)) context
    ∧ user_storage w' !! username = Some d
    ∧ match (database.get_user username w).1 with
      | Ok (Some u) =>
          (database.get_user username w').1
            = Ok (Some (database.set_storage_used (utils.dir_size d) u))
          ∧ same_except_storage_used u
              (database.set_storage_used (utils.dir_size d) u)
      | _ =>
          (database.get_user username w').1 = Ok None
          ∧ db_backup w' = db_backup w
      end.
Proof.
  intros d. unfold pages.storage, routes.get_user_storage_path,
    pages.file_count, utils.get_directory_size.
  cbv [mbind M_bind mret M_ret ret gets].
  rewrite ensure_directory_exists_run. simpl.
  rewrite ensured_user_lookup. simpl. fold d.
  rewrite update_user_storage_run, loaded_ensured. simpl.
  rewrite get_user_run. simpl.
  set (w1 := ensured UserRoot username w).
  destruct (loaded_clock w1) as (_ & _ & Hb & Hus & _).
  assert (user_storage w1 !! username = Some d) as Hd.
  { apply ensured_user_lookup. }
  destruct (users (loaded w).1 !! username) as [u|] eqn:Hu.
  - eexists _, _. split; [reflexivity|].
    split; [simpl; tauto|].
    destruct (saved_fields
                (mkDocument
                   (<[username := database.set_storage_used (utils.dir_size d) u]>
                      (users (loaded w).1)) (shared_folders (loaded w).1))
                (loaded w1).2) as (_ & _ & -> & _).
    rewrite Hus. split; [done|].
    rewrite get_user_run, loaded_saved. simpl. rewrite lookup_insert_eq.
    by repeat split.
  - eexists _, _. split; [reflexivity|].
    split; [simpl; tauto|].
    rewrite Hus. split; [done|].
    rewrite get_user_run, loaded_loaded. simpl. unfold w1 at 1.
    rewrite loaded_ensured. split; [by rewrite Hu|].
    rewrite Hb. unfold w1. apply ensured_fields.
Qed.

(** X14.  The account page needs the user in the store: for a username
    that [get_user] does not find (a session that outlived the store),
    [GET /account] raises [TypeError]; for a user of the store it renders
    the page with the stored email and creation time.  In both cases the
    store file is the one [load_db] leaves (nothing is saved). *)
Theorem account_needs_stored_user (w : World) (username : string) :
  db_file (pages.account cfg format_file_size username w).2
    = db_file (database.load_db w).2
  ∧ db_backup (pages.account cfg format_file_size username w).2 = db_backup w
  ∧ match (database.get_user username w).1 with
    | Ok (Some u) =>
        ∃ context,
          (pages.account cfg format_file_size username w).1
            = Ok (pages.mkReply [] (pages.Render "account.html" context))
          ∧ In ("email", pages.VStr (email u)) context
          ∧ In ("created_at", pages.VStr (created_at u)) context
    | _ => (pages.account cfg format_file_size username w).1 = Raise TypeError
    end.
Proof.
  unfold pages.account, routes.get_user_storage_path, pages.file_count,
    utils.get_directory_size.
  cbv [mbind M_bind mret M_ret ret gets raise].
  rewrite !get_user_run, ensure_directory_exists_run, load_db_run. simpl.
  destruct (ensured_fields UserRoot username (loaded w).2) as (Hf & Hb & _).
  destruct (loaded_clock w) as (_ & _ & Hb' & _).
  destruct (users (loaded w).1 !! username) as [u|]; simpl.
  - split; [done|]. split; [congruence|].
    eexists. split; [reflexivity|]. simpl. tauto.
  - split; [done|]. split; [congruence|]. done.
Qed.

End account_pages.

(* ================================================================== *)
(** * Files *)
(* ================================================================== *)

(** The directory is created empty when it is missing; nothing else on
    the disk changes. *)
Lemma ensured_root_dirs root entry w :
  root_dirs root (ensured root entry w)
  = <[entry := default ∅ (root_dirs root w !! entry)]> (root_dirs root w).
Proof.
  unfold ensured. destruct (root_dirs root w !! entry) as [d|] eqn:E; simpl.
  - by rewrite insert_id.
  - by destruct root.
Qed.

Lemma ensured_other_root entry w :
  shared_storage (ensured UserRoot entry w) = shared_storage w
  ∧ user_storage (ensured SharedRoot entry w) = user_storage w.
Proof.
  unfold ensured. simpl.
  by destruct (user_storage w !! entry), (shared_storage w !! entry).
Qed.

Lemma basename_no_slash path_ :
  Forall (λ c, c ≠ "/"%char) (list_ascii_of_string (utils.basename path_)).
Proof.
  unfold utils.basename. rewrite list_ascii_of_string_of_list_ascii.
  match goal with |- Forall _ (List.last ?l _) =>
    destruct (last_default_or_elem l []) as [->|Hin] end; [constructor|].
  apply split_on_pieces in Hin. eapply Forall_impl; [exact Hin|].
  intros c [Hc _]. by apply bool_decide_eq_false in Hc.
Qed.

(** When the safe name is free the loop is not entered. *)
Lemma unique_filename_free directory original w :
  utils.path_exists (default ∅ (root_dirs directory.1 w !! directory.2))
    (utils.safe_filename original 0) = false →
  routes.unique_filename directory original w
  = (Ok (utils.safe_filename original 0), w).
Proof.
  intros Hfree. unfold routes.unique_filename.
  cbv [mbind M_bind mret M_ret ret raise gets].
  set (d := default ∅ (root_dirs directory.1 w !! directory.2)) in *.
  replace (size d + 2)%nat with (S (size d + 1)) by lia. simpl.
  by rewrite Hfree.
Qed.

(** Joined to a directory, the name of an entry leads to that entry. *)
Lemma resolve_entry_name directory s :
  entry_name s →
  path.resolve directory (list_ascii_of_string s)
  = directory ++ [list_ascii_of_string s].
Proof.
  intros (H0 & H1 & H2 & Hslash).
  assert (∀ l, list_ascii_of_string s = l → s = string_of_list_ascii l) as Hback.
  { intros l <-. by rewrite string_of_list_ascii_of_string. }
  unfold path.resolve. rewrite split_on_plain.
  2:{ eapply Forall_impl; [exact Hslash|]. intros c Hc.
      by apply bool_decide_eq_false_2. }
  assert (match list_ascii_of_string s with
          | c :: _ => if path.sep c then [] else directory
          | [] => directory
          end = directory) as ->.
  { destruct Hslash as [|c l Hc _]; [done|].
    unfold path.sep. by rewrite bool_decide_eq_false_2. }
  simpl. unfold path.normpath_step.
  rewrite bool_decide_eq_false_2.
  2:{ intros [E|E]; apply Hback in E; simpl in E; congruence. }
  rewrite bool_decide_eq_false_2; [done|].
  intros E. apply Hback in E. simpl in E. congruence.
Qed.

(** X15.  For a caller whose username is the name of a directory entry
    (a single path component, so that the caller's directory lies
    directly under the upload root), [POST /delete/<path>] reaches one
    entry of that directory and nothing else: whatever the path, only
    its basename is used; afterwards the caller's directory is the one
    before without that entry, and every other directory of the upload
    root, the shared storage and the store file are as they were.  An
    entry that is there is removed with a success message; a name that
    is not there is answered with "File not found.", except that a
    basename that is empty, ["."] or [".."] names a directory, on which
    [os.remove] raises. *)
Theorem delete_file_frame (w : World) (username path_ : string) :
  entry_name username →
  let d := default ∅ (user_storage w !! username) in
  let filename_ := utils.basename path_ in
  (∀ upload_folder,
     path.resolve upload_folder (list_ascii_of_string username)
     = upload_folder ++ [list_ascii_of_string username])
  ∧ ∃ r w',
    pages.delete_file username path_ w = (r, w')
    ∧ user_storage w' !! username = Some (delete filename_ d)
    ∧ (∀ other, other ≠ username →
         user_storage w' !! other = user_storage w !! other)
    ∧ shared_storage w' = shared_storage w
    ∧ db_file w' = db_file w ∧ db_backup w' = db_backup w
    ∧ r = match d !! filename_ with
          | Some _ => Ok (file_deleted_reply filename_)
          | None => if utils.path_exists d filename_
                    then Raise IsADirectoryError
                    else Ok file_not_found_reply
          end.
Proof.
  intros Hentry_name d filename_.
  split; [intros upload_folder; by apply resolve_entry_name|].
  unfold pages.delete_file, routes.get_user_storage_path, routes.exists_in,
    routes.os_remove, routes.flash_redirect.
  cbv [mbind M_bind mret M_ret ret raise gets modify].
  rewrite ensure_directory_exists_run. simpl.
  rewrite ensured_user_lookup. simpl. fold d filename_.
  pose proof (ensured_root_dirs UserRoot username w) as Hroot. simpl in Hroot.
  fold d in Hroot.
  destruct (ensured_other_root username w) as (Hshared & _).
  destruct (ensured_fields UserRoot username w) as (Hf & Hb & _).
  destruct (d !! filename_) as [size_|] eqn:Hentry.
  - assert (utils.path_exists d filename_ = true) as ->.
    { unfold utils.path_exists. rewrite Hentry.
      rewrite (bool_decide_eq_true_2 (is_Some _)) by eauto.
      by rewrite !orb_true_r. }
    simpl. rewrite ?ensured_user_lookup. simpl. fold d. rewrite Hentry.
    eexists _, _. split; [reflexivity|]. simpl.
    rewrite Hroot. split; [by rewrite lookup_insert_eq|].
    split; [intros other Hne; by rewrite !lookup_insert_ne|]. done.
  - rewrite (delete_id d filename_) by done.
    destruct (utils.path_exists d filename_) eqn:Hex; simpl.
    + rewrite ?ensured_user_lookup. simpl. fold d. rewrite Hentry.
      eexists _, _. split; [reflexivity|]. rewrite Hroot.
      split; [by rewrite lookup_insert_eq|].
      split; [intros other Hne; by rewrite lookup_insert_ne|]. done.
    + eexists _, _. split; [reflexivity|]. rewrite Hroot.
      split; [by rewrite lookup_insert_eq|].
      split; [intros other Hne; by rewrite lookup_insert_ne|]. done.
Qed.

(** X16.  [GET /download/<path>] never changes a file and only ever
    serves an entry of the caller's own directory: it always returns a
    reply, the only effect on the disk is that the caller's directory
    exists afterwards, and when the reply sends a file, the file is the
    basename of the path, which holds no ['/'], taken from the caller's
    directory, where it is an entry. *)
Theorem download_file_serves_own_files (w : World) (username path_ : string) :
  let d := default ∅ (user_storage w !! username) in
  ∃ r,
    pages.download_file username path_ w
      = (Ok r, ensured UserRoot username w)
    ∧ Forall (λ c, c ≠ "/"%char) (list_ascii_of_string (utils.basename path_))
    ∧ match routes.response r with
      | routes.SendFromDirectory root entry filename_ =>
          root = UserRoot ∧ entry = username
          ∧ filename_ = utils.basename path_
          ∧ is_Some (d !! filename_)
      | routes.Redirect endpoint _ => endpoint = "storage"
      | routes.RenderSharedFolder _ _ _ => False
      end.
Proof.
  intros d.
  unfold pages.download_file, routes.get_user_storage_path, routes.exists_in,
    routes.flash_redirect, routes.respond.
  cbv [mbind M_bind mret M_ret ret raise gets modify].
  rewrite ensure_directory_exists_run. simpl.
  rewrite ensured_user_lookup. simpl. fold d.
  destruct (utils.path_exists d (utils.basename path_)); simpl.
  - rewrite ensured_user_lookup. simpl. fold d.
    case_bool_decide as Hfile; eexists; (split; [reflexivity|]);
      (split; [apply basename_no_slash|]); simpl; done.
  - eexists. split; [reflexivity|]. split; [apply basename_no_slash|]. done.
Qed.

(** ** Files of a shared folder *)


Lemma ensured_shared_lookup folder_id w :
  shared_storage (ensured SharedRoot folder_id w) !! folder_id
  = Some (default ∅ (shared_storage w !! folder_id)).
Proof. apply (ensured_lookup SharedRoot). Qed.

Section shared_files.
Variable cfg : config.Config.
Variable allowed_file : string → bool.
Variable format_file_size : Z → string.


(** X18.  Uploads to a shared folder are not counted against the
    quota of anybody: for the owner or a member and a request of at
    most [MAX_CONTENT_LENGTH] bytes that carries a named file of an
    allowed type, the upload succeeds whatever the user and the folder
    already store and whatever [STORAGE_LIMIT_PER_USER] is; the file is
    stored in the directory of the folder under a name that was free
    (the safe name itself when that is free), the entries that were
    there are kept, and no personal storage changes. *)
Theorem upload_to_shared_unmetered (w : World) (username folder_id : string)
    (request : routes.Request) (file : routes.FileStorage) :
  (database.can_access_folder username folder_id w).1 = Ok true →
  routes.body_length request ≤ config.MAX_CONTENT_LENGTH cfg →
  routes.file_field request = Some file →
  routes.filename file ≠ "" →
  allowed_file (routes.filename file) = true →
  let d := default ∅ (shared_storage w !! folder_id) in
  ∃ stored w',
    routes.upload_to_shared allowed_file format_file_size username folder_id
      (routes.request_files cfg request) w
    = (Ok (routes.mkReply
             [("File " +:+ routes.dq +:+ stored +:+ routes.dq
                 +:+ " uploaded to shared folder! ("
                 +:+ format_file_size (routes.content_length file) +:+ ")",
               "success")]
             (routes.Redirect "view_shared_folder" (Some folder_id))), w')
    ∧ d !! stored = None
    ∧ shared_storage w' !! folder_id
      = Some (<[stored := routes.content_length file]> d)
    ∧ user_storage w' = user_storage w
    ∧ (if utils.path_exists d (utils.safe_filename (routes.filename file) 0)
       then True
       else stored = utils.safe_filename (routes.filename file) 0).
Proof.
  intros Hacc Hbody Hfile Hname Hallowed d.
  rewrite can_access_folder_run in Hacc. simpl in Hacc. injection Hacc as Hacc.
  unfold routes.upload_to_shared, routes.get_shared_folder_path,
    routes.flash_redirect, routes.request_files, routes.reading.
  rewrite (bool_decide_eq_false_2 (routes.body_length request > _)) by lia.
  cbv [mbind M_bind mret M_ret ret].
  rewrite can_access_folder_run, Hacc. simpl. rewrite Hfile.
  rewrite (bool_decide_eq_false_2 (routes.filename file = "")) by done.
  rewrite Hallowed. simpl.
  rewrite ensure_directory_exists_run.
  destruct (loaded_clock w) as (_ & _ & _ & Hus & Hss & _).
  set (w1 := ensured SharedRoot folder_id (loaded w).2).
  assert (shared_storage w1 !! folder_id = Some d) as Hd.
  { unfold w1. rewrite ensured_shared_lookup. by rewrite Hss. }
  assert (user_storage w1 = user_storage w) as Hus1.
  { unfold w1. destruct (ensured_other_root folder_id (loaded w).2) as (_ & ->).
    done. }
  destruct (unique_filename_run (SharedRoot, folder_id) (routes.filename file) w1)
    as (stored & Hrun & Hfree).
  simpl in Hfree. rewrite Hd in Hfree. simpl in Hfree.
  assert (d !! stored = None) as Hnew.
  { unfold utils.path_exists in Hfree.
    repeat apply orb_false_elim in Hfree as [Hfree ?].
    match goal with H : bool_decide (is_Some _) = false |- _ =>
      apply bool_decide_eq_false in H; by apply eq_None_not_Some in H end. }
  rewrite Hrun. unfold routes.file_save.
  cbv [mbind M_bind mret M_ret ret modify]. simpl. rewrite Hd. simpl.
  exists stored. eexists. split; [reflexivity|]. simpl.
  split; [done|]. split; [by rewrite lookup_insert_eq|]. split; [done|].
  destruct (utils.path_exists d (utils.safe_filename (routes.filename file) 0))
    eqn:Hsafe; [done|].
  rewrite (unique_filename_free (SharedRoot, folder_id)) in Hrun.
  - by injection Hrun as ->.
  - simpl. by rewrite Hd.
Qed.

(** X19.  Only the owner deletes a folder: for a folder of the store
    and any other user, a member of the folder included, [POST
    /delete_shared_folder/<folder_id>] is refused and changes nothing at
    all: the record, the directory and the files stay. *)
Theorem delete_folder_owner_only (w : World) (username folder_id : string)
    (info : Folder) :
  (database.get_shared_folder folder_id w).1 = Ok (Some info) →
  owner info ≠ username →
  routes.delete_folder username folder_id w = (Ok only_owner_reply, w)
  ∧ database.get_shared_folder folder_id w = (Ok (Some info), w).
Proof.
  intros Hget Hown.
  rewrite (delete_folder_not_owner username folder_id info w) by done.
  rewrite get_shared_folder_run in *. simpl in Hget. injection Hget as Hget.
  assert ((loaded w).2 = w) as ->.
  { unfold loaded in *. destruct (db_file w) as [[raw|data]|]; try done. }
  by rewrite Hget.
Qed.


(** X21.  [POST /delete_shared/<folder_id>/<path>] removes at most one
    entry, and only for the owner or a member: the personal storage,
    the store backup and the files of every other folder are never
    changed; for a user whom [can_access_folder] lets in, the directory
    of the folder afterwards is the one before without the basename of
    the path; for everybody else the reply is the denial and the shared
    storage is as it was. *)
Theorem delete_shared_file_frame (w : World)
    (username folder_id path_ : string) :
  let d := default ∅ (shared_storage w !! folder_id) in
  ∃ r w',
    routes.delete_shared_file username folder_id path_ w = (r, w')
    ∧ user_storage w' = user_storage w
    ∧ db_backup w' = db_backup w
    ∧ (∀ other, other ≠ folder_id →
         default ∅ (shared_storage w' !! other)
         = default ∅ (shared_storage w !! other))
    ∧ match (database.can_access_folder username folder_id w).1 with
      | Ok true =>
          shared_storage w' !! folder_id
          = Some (delete (utils.basename path_) d)
      | _ => r = Ok denied_reply ∧ shared_storage w' = shared_storage w
      end.
Proof.
  intros d.
  unfold routes.delete_shared_file, routes.get_shared_folder_path,
    routes.exists_in, routes.os_remove, routes.access_denied,
    routes.flash_redirect.
  cbv [mbind M_bind mret M_ret ret raise gets modify].
  rewrite !can_access_folder_run. simpl.
  destruct (loaded_clock w) as (_ & _ & Hb & Hus & Hss & _).
  destruct (match folders_of (loaded w).1 !! folder_id with
            | Some f => database.is_member username f
            | None => false
            end); simpl.
  - rewrite ensure_directory_exists_run. simpl.
    rewrite ensured_shared_lookup. simpl. rewrite Hss. fold d.
    destruct (ensured_other_root folder_id (loaded w).2) as (_ & Hus').
    destruct (ensured_fields SharedRoot folder_id (loaded w).2) as (_ & Hb' & _).
    pose proof (ensured_root_dirs SharedRoot folder_id (loaded w).2) as Hroot.
    simpl in Hroot. rewrite Hss in Hroot. fold d in Hroot.
    destruct (utils.path_exists d (utils.basename path_)) eqn:Hex; simpl.
    + rewrite ?ensured_shared_lookup. simpl. rewrite ?Hss. fold d.
      destruct (d !! utils.basename path_) as [size_|] eqn:Hentry.
      * eexists _, _. split; [reflexivity|]. simpl. rewrite Hroot.
        split; [congruence|]. split; [congruence|].
        split; [intros other Hne; by rewrite !lookup_insert_ne|].
        by rewrite lookup_insert_eq.
      * eexists _, _. split; [reflexivity|]. rewrite Hroot.
        split; [congruence|]. split; [congruence|].
        split; [intros other Hne; by rewrite lookup_insert_ne|].
        by rewrite lookup_insert_eq, delete_id.
    + eexists _, _. split; [reflexivity|]. rewrite Hroot.
      split; [congruence|]. split; [congruence|].
      split; [intros other Hne; by rewrite lookup_insert_ne|].
      rewrite lookup_insert_eq. f_equal. symmetry. apply delete_id.
      unfold utils.path_exists in Hex.
      repeat apply orb_false_elim in Hex as [Hex ?].
      match goal with H : bool_decide (is_Some _) = false |- _ =>
        apply bool_decide_eq_false in H; by apply eq_None_not_Some in H end.
  - eexists _, _. split; [reflexivity|]. split; [done|]. split; [done|].
    split; [intros other _; by rewrite Hss|]. by split.
Qed.

End shared_files.

(* ================================================================== *)
(** * Configuration and response headers *)
(* ================================================================== *)

(** X22.  What [FLASK_ENV] selects: secure cookies are on exactly for
    ["production"], debug is on for every other value (a missing or
    unknown value falls back to the development class) whatever the
    [DEBUG] variable says, and the testing flag is on exactly for
    ["testing"].  The limits do not depend on the mode: the per-user
    limit is [STORAGE_LIMIT_GB] (default 10) times 2^30 bytes, the
    maximal upload is 2 GiB. *)
Theorem get_config_by_mode (environ : config.Environ) (urandom_hex : string) :
  let cfg := config.get_config environ urandom_hex in
  let production :=
    bool_decide (config.env_FLASK_ENV environ = Some "production") in
  config.SESSION_COOKIE_SECURE cfg = production
  ∧ config.DEBUG cfg = negb production
  ∧ config.TESTING cfg
    = bool_decide (config.env_FLASK_ENV environ = Some "testing")
  ∧ config.STORAGE_LIMIT_PER_USER cfg
    = default 10 (config.env_STORAGE_LIMIT_GB environ) * 2 ^ 30
  ∧ config.MAX_CONTENT_LENGTH cfg = 2 ^ 31
  ∧ config.SESSION_COOKIE_HTTPONLY cfg = true.
Proof.
  unfold config.get_config, config.config_get.
  destruct (config.env_FLASK_ENV environ) as [mode|]; simpl.
  - repeat case_bool_decide; simplify_eq; simpl;
      repeat split; try done; try lia;
      try (symmetry; apply bool_decide_eq_false_2; congruence);
      try (symmetry; apply bool_decide_eq_true_2; congruence).
  - repeat split; try done; lia.
Qed.

(** X23.  Outside production the signing key is never missing: for
    every value of [FLASK_ENV] other than ["production"], the key is the
    [SECRET_KEY] of the environment when that is set and not empty, and
    the random default otherwise; it is never empty when the random
    default is not. *)
Theorem secret_key_outside_production (environ : config.Environ)
    (urandom_hex : string) :
  urandom_hex ≠ "" →
  config.env_FLASK_ENV environ ≠ Some "production" →
  ∃ key,
    config.SECRET_KEY (config.get_config environ urandom_hex) = Some key
    ∧ key ≠ ""
    ∧ key = match config.env_SECRET_KEY environ with
            | Some given => if bool_decide (given = "") then urandom_hex
                            else given
            | None => urandom_hex
            end.
Proof.
  intros Hrnd Hmode. exists (config.py_or (config.env_SECRET_KEY environ) urandom_hex).
  split.
  - unfold config.get_config, config.config_get.
    destruct (config.env_FLASK_ENV environ) as [mode|]; simpl; [|done].
    repeat case_bool_decide; simplify_eq; done.
  - unfold config.py_or.
    destruct (config.env_SECRET_KEY environ) as [given|]; [|done].
    by case_bool_decide.
Qed.

Lemma secret_key_outside_production_witness :
  config.SECRET_KEY (config.get_config max_users_1 "9f3c") = Some "9f3c".
Proof.
  destruct (secret_key_outside_production max_users_1 "9f3c")
    as (key & -> & _ & ->); [discriminate|discriminate|reflexivity].
Defined.

(** X24.  The [after_request] hook: every response leaves with
    [X-Content-Type-Options: nosniff], [X-Frame-Options: DENY] and
    [X-XSS-Protection: 1; mode=block], whatever the view had set under
    these names; [Strict-Transport-Security] is set exactly when
    [FLASK_ENV] is ["production"] and is otherwise left as the view
    set it; every other header is as the view set it. *)
Theorem security_headers_by_mode (environ : config.Environ)
    (urandom_hex : string) (headers : gmap string string) :
  let cfg := config.get_config environ urandom_hex in
  let after := app_production.set_security_headers cfg headers in
  app_production.header_get "X-Content-Type-Options" after = Some "nosniff"
  ∧ app_production.header_get "X-Frame-Options" after = Some "DENY"
  ∧ app_production.header_get "X-XSS-Protection" after = Some "1; mode=block"
  ∧ app_production.header_get "Strict-Transport-Security" after
    = (if bool_decide (config.env_FLASK_ENV environ = Some "production")
       then Some "max-age=31536000; includeSubDomains"
       else app_production.header_get "Strict-Transport-Security" headers)
  ∧ ∀ name_, config.lower name_ ∉ security_header_names →
      app_production.header_get name_ after
      = app_production.header_get name_ headers.
Proof.
  intros cfg after.
  destruct (get_config_by_mode environ urandom_hex) as (Hsecure & _).
  fold cfg in Hsecure. simpl in Hsecure.
  unfold after, app_production.set_security_headers,
    app_production.header_get, app_production.header_set.
  rewrite Hsecure.
  change (config.lower "X-Content-Type-Options") with "x-content-type-options".
  change (config.lower "X-Frame-Options") with "x-frame-options".
  change (config.lower "X-XSS-Protection") with "x-xss-protection".
  change (config.lower "Strict-Transport-Security")
    with "strict-transport-security".
  assert (∀ name_, config.lower name_ ∉ security_header_names →
            config.lower name_ ≠ "x-content-type-options"
            ∧ config.lower name_ ≠ "x-frame-options"
            ∧ config.lower name_ ≠ "x-xss-protection"
            ∧ config.lower name_ ≠ "strict-transport-security") as Hother.
  { intros name_ Hn. unfold security_header_names in Hn.
    repeat split; intros E; apply Hn; rewrite E;
      repeat (first [by left | right]). }
  case_bool_decide; simpl.
  - repeat split.
    + rewrite !lookup_insert_ne by done. apply lookup_insert_eq.
    + rewrite !lookup_insert_ne by done. apply lookup_insert_eq.
    + rewrite !lookup_insert_ne by done. apply lookup_insert_eq.
    + apply lookup_insert_eq.
    + intros name_ Hn. destruct (Hother name_ Hn) as (? & ? & ? & ?).
      by rewrite !lookup_insert_ne.
  - repeat split.
    + rewrite !lookup_insert_ne by done. apply lookup_insert_eq.
    + rewrite !lookup_insert_ne by done. apply lookup_insert_eq.
    + apply lookup_insert_eq.
    + by rewrite !lookup_insert_ne.
    + intros name_ Hn. destruct (Hother name_ Hn) as (? & ? & ? & ?).
      by rewrite !lookup_insert_ne.
Qed.

(* ================================================================== *)
(** * The statements above at sample inputs *)
(* ================================================================== *)

Lemma login_failure_is_generic_witness :
  pages.login (λ _ _ p, bool_decide (p = "opensesame")) pages.cleared
    (Some (pages.mkLoginForm "bob" "opensesame")) one_user_world
  = (Ok (pages.invalid_login, pages.cleared),
     (database.load_db one_user_world).2)
  ∧ pages.login (λ _ _ p, bool_decide (p = "opensesame")) pages.cleared
      (Some (pages.mkLoginForm "alice" "wrong")) one_user_world
    = (Ok (pages.invalid_login, pages.cleared), one_user_world).
Proof.
  apply (login_failure_is_generic (λ _ _ p, bool_decide (p = "opensesame"))
           one_user_world one_user_world pages.cleared
           (pages.mkLoginForm "bob" "opensesame")
           (pages.mkLoginForm "alice" "wrong") alice);
    first [discriminate | reflexivity | vm_compute; reflexivity].
Defined.

Lemma login_success_witness :
  ∃ w',
    (pages.login (λ _ _ p, bool_decide (p = "opensesame")) pages.cleared
       (Some (pages.mkLoginForm "alice" "opensesame")) one_user_world).2 = w'
    ∧ (database.get_user "alice" w').1
      = Ok (Some (database.set_last_active "2024-01-02T00:00:01" alice)).
Proof.
  destruct (login_success (λ _ _ p, bool_decide (p = "opensesame"))
              one_user_world pages.cleared
              (pages.mkLoginForm "alice" "opensesame") alice)
    as (w' & Hrun & Hget & _);
    [reflexivity|discriminate|discriminate|vm_compute; reflexivity|reflexivity|].
  exists w'. split; [by rewrite Hrun|]. simpl in Hget. by rewrite Hget.
Defined.

Lemma register_creates_account_witness :
  ∃ w' record,
    (database.get_user "bob" w').1 = Ok (Some record)
    ∧ storage_limit record = 1073741824
    ∧ is_Some (user_storage w' !! "bob").
Proof.
  destruct (register_creates_account one_gib (λ p w, (Ok ("5a17", p), w))
              (λ _, "Registration successful!") one_user_world one_user_world
              (pages.mkRegisterForm "bob" "bob@example.org" "longenough1"
                 "longenough1")
              ("5a17", "longenough1") {[ "alice" := alice ]})
    as (w' & record & _ & Hget & _ & _ & _ & _ & Hlimit & Hdir).
  - vm_compute; lia.
  - discriminate.
  - vm_compute; lia.
  - reflexivity.
  - reflexivity.
  - vm_compute; reflexivity.
  - vm_compute; reflexivity.
  - vm_compute; lia.
  - exists w', record. by rewrite Hlimit.
Defined.

(** bob, whose own quota under [one_gib] is 1 GiB, puts a file of
    1.5 GiB into the folder of alice. *)
Lemma upload_to_shared_unmetered_witness :
  ∃ w',
    shared_storage w' !! "00112233aabbccdd"
    = Some {[ "big.iso" := 1610612736 ]}.
Proof.
  destruct (upload_to_shared_unmetered one_gib (λ _, true) (λ _, "1.5 GB")
              team_world "bob" "00112233aabbccdd"
              (routes.mkRequest 1610613248
                 (Some (routes.mkFileStorage "big.iso" 1610612736)))
              (routes.mkFileStorage "big.iso" 1610612736))
    as (stored & w' & _ & _ & Hdir & _ & Hname);
    [vm_compute; reflexivity|vm_compute; discriminate|reflexivity|discriminate
    |reflexivity|].
  exists w'. rewrite Hdir.
  change (utils.path_exists _ _) with false in Hname. by rewrite Hname.
Defined.

Lemma delete_folder_owner_only_witness :
  routes.delete_folder "bob" "00112233aabbccdd" team_world
    = (Ok only_owner_reply, team_world)
  ∧ database.is_member "bob" team = true.
Proof.
  split; [|reflexivity].
  apply (delete_folder_owner_only team_world "bob" "00112233aabbccdd" team).
  - vm_compute; reflexivity.
  - discriminate.
Defined.

Lemma delete_file_frame_witness :
  ∃ w',
    pages.delete_file "alice" "x/../a.bin" nearly_full_world
      = (Ok (file_deleted_reply "a.bin"), w')
    ∧ user_storage w' !! "alice" = Some ∅.
Proof.
  destruct (delete_file_frame nearly_full_world "alice" "x/../a.bin")
    as (_ & r & w' & Hrun & Hdir & _ & _ & _ & _ & Hr).
  - repeat split; try discriminate. repeat constructor; discriminate.
  - exists w'. split.
    + rewrite Hrun, Hr. vm_compute. reflexivity.
    + rewrite Hdir. vm_compute. reflexivity.
Defined.

(** A username of two characters that take four bytes is too short for
    [register], whatever [hash_password] is. *)
Example register_counts_characters :
  pages.len "éé" = 2%nat ∧ String.length "éé" = 4%nat
  ∧ pages.register one_gib (λ p w, (Ok ("5a17", p), w)) (λ _, "")
      (Some (pages.mkRegisterForm "éé" "e@example.org" "longenough1"
               "longenough1"))
      one_user_world
    = (Ok (pages.mkReply [("Username must be at least 3 characters.", "error")]
             (pages.Render "register.html" [])), one_user_world).
Proof. vm_compute. done. Qed.
